(** * The social façade and the coordination HTTP server

    A shallow embedding of [src/services/social/index.ts] (the
    [SocialService] class) and of the Express server that follows it in
    the same source file ([createServer]), together with the properties
    the specification states about them.

    The two components only wire collaborators together, so the
    embedding is a small state-and-exception monad over an abstract
    outside world.  Every call made on a collaborator, every log line and
    every HTTP response is appended to a trace, which is what the
    theorems talk about. *)

From Stdlib Require Import String Ascii List Bool Arith Floats DecimalString Lia.
Import ListNotations.
Open Scope string_scope.

Set Implicit Arguments.
#[local] Set Warnings "-register-all".

(** ** JavaScript primitives *)

Module Js.

(** A JavaScript [number] is an IEEE 754 binary64 value. *)
Definition number := float.

(** [!!s] on a string: only the empty string is falsy. *)
Definition truthy_string (s : string) : bool := negb (s =? "").

(** [!!x] on a number: [0], [-0] and [NaN] are falsy. *)
Definition truthy_number (x : number) : bool :=
  negb (PrimFloat.eqb x 0%float || PrimFloat.is_nan x).

(** [!!v] where [v] is [undefined] or a string. *)
Definition truthy_opt_string (v : option string) : bool :=
  match v with
  | Some s => truthy_string s
  | None => false
  end.

(** [a || b] where both operands are [undefined] or a string. *)
Definition or_string (a b : option string) : option string :=
  if truthy_opt_string a then a else b.

(** [a || d] where [d] is a string literal, so the result is a string. *)
Definition or_literal (a : option string) (d : string) : string :=
  match a with
  | Some s => if truthy_string s then s else d
  | None => d
  end.

(** [a || d] where [a] is [undefined] or a number. *)
Definition or_number (a : option number) (d : number) : number :=
  match a with
  | Some x => if truthy_number x then x else d
  | None => d
  end.

(** [a ?? d]. *)
Definition nullish {A : Type} (a : option A) (d : A) : A :=
  match a with
  | Some x => x
  | None => d
  end.

(** [String.prototype.toLowerCase], on the ASCII range.  Strings are
    sequences of bytes; a byte outside [A-Z] is left alone.  No
    character outside ASCII lowercases to one of the letters of
    [twitter] or [discord], so the comparison made by [sendMessage]
    is the one the engine makes. *)
Definition lower_ascii (c : ascii) : ascii :=
  let n := nat_of_ascii c in
  if ((65 <=? n) && (n <=? 90))%nat then ascii_of_nat (n + 32) else c.

Fixpoint toLowerCase (s : string) : string :=
  match s with
  | EmptyString => EmptyString
  | String c rest => String (lower_ascii c) (toLowerCase rest)
  end.

(** The values a JSON body or a coordination record can hold. *)
Inductive Value : Type :=
| Undefined
| Null
| Boolean (b : bool)
| Number (x : number)
| Str (s : string)
| Array (items : list Value)
| Object (props : list (string * Value)).

(** [obj.key] on an object literal: the first binding of [key], or
    [undefined]. *)
Fixpoint own_property (props : list (string * Value)) (key : string) : Value :=
  match props with
  | [] => Undefined
  | (k, v) :: rest => if k =? key then v else own_property rest key
  end.

(** What a thrown or rejected value can be.  [Error] is an error object
    created by this module with [new Error(message)]; [TypeError] is the
    engine's own error when [undefined] or [null] is destructured;
    [External] is whatever a collaborator threw or rejected with. *)
Inductive Thrown (F : Type) : Type :=
| Error (message : string)
| TypeError
| External (e : F).
Arguments Error {F} message.
Arguments TypeError {F}.
Arguments External {F} e.

(** The state of a promise once the event loop has run as far as it
    can: fulfilled, rejected, or never settled. *)
Inductive Promise (E A : Type) : Type :=
| Fulfilled (a : A)
| Rejected (e : E)
| Pending.
Arguments Fulfilled {E A} a.
Arguments Rejected {E A} e.
Arguments Pending {E A}.

(** [Promise.all]: rejected as soon as one entry is rejected, fulfilled
    when every entry is, pending otherwise.  With several rejected
    entries the one that settles first wins; at both call sites of this
    module every entry but the last is already settled when
    [Promise.all] subscribes, so that is the first in list order. *)
Fixpoint first_rejection {E A : Type} (ps : list (Promise E A)) : option E :=
  match ps with
  | [] => None
  | Rejected e :: _ => Some e
  | _ :: rest => first_rejection rest
  end.

Fixpoint all_fulfilled {E A : Type} (ps : list (Promise E A)) : option (list A) :=
  match ps with
  | [] => Some []
  | Fulfilled a :: rest =>
      match all_fulfilled rest with
      | Some vs => Some (a :: vs)
      | None => None
      end
  | _ :: _ => None
  end.

Definition Promise_all {E A : Type} (ps : list (Promise E A)) : Promise E (list A) :=
  match first_rejection ps with
  | Some e => Rejected e
  | None =>
      match all_fulfilled ps with
      | Some vs => Fulfilled vs
      | None => Pending
      end
  end.

(** What calling a collaborator's method gives: it throws before
    returning, or it returns a promise. *)
Inductive Outcome (F A : Type) : Type :=
| Threw (e : F)
| Returned (p : Promise F A).
Arguments Threw {F A} e.
Arguments Returned {F A} p.

End Js.

Import Js.

(** ** Configuration (the [SocialConfig] interface) *)

Record DiscordConfig : Type := {
  token : string;
  guildId : string
}.

Record ContentRules : Type := {
  maxEmojis : number;
  maxHashtags : number;
  minInterval : number
}.

Record TwitterConfig : Type := {
  oauthClientId : string;
  oauthClientSecret : string;
  apiKey : string;
  apiSecret : string;
  accessToken : string;
  accessSecret : string;
  bearerToken : string;
  mockMode : option bool;
  maxRetries : option number;
  retryDelay : option number;
  contentRules : option ContentRules
}.

Record HeliusConfig : Type := {
  helius_apiKey : string
}.

Record RedisConfig : Type := {
  host : option string;
  port : option number;
  password : option string
}.

Record SocialConfig (AI : Type) : Type := {
  services_ai : AI;
  discord : option DiscordConfig;
  twitter : option TwitterConfig;
  helius : option HeliusConfig;
  redis : option RedisConfig
}.

Record SocialMetrics : Type := {
  followers : number;
  engagement : number;
  activity : string
}.

(** ** What the constructor hands to the collaborators *)

Record RedisOptions : Type := {
  ro_host : string;
  ro_port : number;
  ro_password : string;
  ro_keyPrefix : string;
  ro_enableCircuitBreaker : bool
}.

Record TokenProviderOptions : Type := {
  tpo_apiKey : string
}.

Record RpcConnection : Type := {
  rpc_url : string;
  rpc_walletPublicKey : string
}.

Record JupiterOptions : Type := {
  jo_redis : RedisOptions;
  jo_rpcConnection : RpcConnection
}.

Record MarketDataConfig : Type := {
  heliusApiKey : string;
  updateInterval : number;
  volatilityThreshold : number
}.

Record TwitterOptions : Type := {
  to_apiKey : string;
  to_apiSecret : string;
  to_accessToken : string;
  to_accessSecret : string;
  to_bearerToken : string;
  to_mockMode : bool;
  to_maxRetries : number;
  to_retryDelay : number;
  to_baseUrl : string;
  to_contentRules : ContentRules;
  to_oauthClientId : string;
  to_oauthClientSecret : string;
  to_marketDataConfig : MarketDataConfig;
  to_tokenAddresses : list string
}.

Record DiscordOptions (AI : Type) : Type := {
  do_token : string;
  do_guildId : string;
  do_aiService : AI
}.

(** ** The collaborators

    None of the imported classes is part of this source file.  They are
    taken as parameters: a type of objects for each class, and for each
    constructor or method used here a function of the outside world.  A
    constructor throws or returns an object; an asynchronous method
    throws or returns a promise. *)

Definition Ctor (W F A : Type) : Type := W -> (F + A) * W.
Definition Method (W F A : Type) : Type := W -> Outcome F A * W.

Record Collaborators : Type := {
  World : Type;
  Foreign : Type;
  AI : Type;
  RedisCacheService : Type;
  Connection : Type;
  PublicKey : Type;
  WalletProvider : Type;
  TokenProvider : Type;
  JupiterPriceV2Service : Type;
  MarketDataProcessor : Type;
  TwitterService : Type;
  DiscordService : Type;
  (* process.env and the global parseInt *)
  env : string -> option string;
  parseInt : string -> number;
  (* constructors *)
  new_RedisCacheService : RedisOptions -> Ctor World Foreign RedisCacheService;
  new_Connection : string -> Ctor World Foreign Connection;
  new_PublicKey : string -> Ctor World Foreign PublicKey;
  new_WalletProvider : Connection -> PublicKey -> Ctor World Foreign WalletProvider;
  new_TokenProvider :
    string -> WalletProvider -> RedisCacheService -> TokenProviderOptions ->
    Ctor World Foreign TokenProvider;
  new_JupiterPriceV2Service :
    JupiterOptions -> TokenProvider -> RedisCacheService ->
    Ctor World Foreign JupiterPriceV2Service;
  new_MarketDataProcessor :
    string -> string -> option string -> Ctor World Foreign MarketDataProcessor;
  new_TwitterService :
    TwitterOptions -> AI -> MarketDataProcessor -> Ctor World Foreign TwitterService;
  new_DiscordService : DiscordOptions AI -> Ctor World Foreign DiscordService;
  (* platform clients *)
  twitter_initialize : TwitterService -> Method World Foreign unit;
  tweet : TwitterService -> string -> option string -> Method World Foreign unit;
  discord_sendMessage : DiscordService -> string -> string -> Method World Foreign unit;
  (* AgentCoordinationService.getInstance() *)
  registerAgent : Value -> Method World Foreign Value;
  updateTaskStatus : string -> Value -> Value -> Method World Foreign unit
}.

(** ** The monad of the embedding *)

Section Core.

Variable X : Collaborators.

(** Thrown values, as this module sees them. *)
Definition Exn : Type := Thrown (Foreign X).

(** The calls this module makes on the platform clients and on the
    coordination service. *)
Inductive Call : Type :=
| TwitterInitialize
| Tweet (content : string) (replyToTweetId : option string)
| DiscordSendMessage (target content : string)
| RegisterAgent (payload : Value)
| UpdateTaskStatus (taskId : string) (status result : Value).

(** What an observer of the module sees, in order: a call on a
    collaborator with how it ended, a line written through
    [elizaLogger] or through the server's [logger], a response sent
    with [res.status(code).json(body)]. *)
Inductive Event : Type :=
| Invoked (c : Call) (o : Outcome (Foreign X) unit)
| ElizaSuccess (message : string)
| ElizaError (message : string) (error : Exn)
| LoggerError (message : string) (error : Exn)
| Responded (code : nat) (body : Value).

Record St : Type := {
  world : World X;
  trace : list Event
}.

(** How a piece of code ends: normally, by throwing (for an [async]
    function: the promise it returned is rejected), or never, because
    it awaits a promise that is never settled. *)
Inductive Completion (A : Type) : Type :=
| Normal (a : A)
| Abrupt (e : Exn)
| Stuck.
Arguments Normal {A} a.
Arguments Abrupt {A} e.
Arguments Stuck {A}.

Definition M (A : Type) : Type := St -> Completion A * St.

Definition ret {A : Type} (a : A) : M A := fun s => (Normal a, s).

Definition bind {A B : Type} (m : M A) (k : A -> M B) : M B :=
  fun s =>
    match m s with
    | (Normal a, s') => k a s'
    | (Abrupt e, s') => (Abrupt e, s')
    | (Stuck, s') => (Stuck, s')
    end.

Definition throw {A : Type} (e : Exn) : M A := fun s => (Abrupt e, s).

(** [try { m } catch (error) { h error }]. *)
Definition try_catch {A : Type} (m : M A) (h : Exn -> M A) : M A :=
  fun s =>
    match m s with
    | (Abrupt e, s') => h e s'
    | r => r
    end.

Definition emit (ev : Event) : M unit :=
  fun s => (Normal tt, {| world := world s; trace := trace s ++ [ev] |}).

(** [new C(args)]. *)
Definition new {A : Type} (c : Ctor (World X) (Foreign X) A) : M A :=
  fun s =>
    let (r, w) := c (world s) in
    let s' := {| world := w; trace := trace s |} in
    match r with
    | inl e => (Abrupt (External e), s')
    | inr a => (Normal a, s')
    end.

Definition forget {A : Type} (o : Outcome (Foreign X) A) : Outcome (Foreign X) unit :=
  match o with
  | Threw e => Threw e
  | Returned (Fulfilled _) => Returned (Fulfilled tt)
  | Returned (Rejected e) => Returned (Rejected e)
  | Returned Pending => Returned Pending
  end.

Definition external {A : Type} (p : Promise (Foreign X) A) : Promise Exn A :=
  match p with
  | Fulfilled a => Fulfilled a
  | Rejected e => Rejected (External e)
  | Pending => Pending
  end.

(** A call on a collaborator's method [f], recorded as [c]: the world
    moves, and the caller gets the promise or the exception. *)
Definition invoke {A : Type} (c : Call) (f : Method (World X) (Foreign X) A)
  : M (Promise Exn A) :=
  fun s =>
    let (o, w) := f (world s) in
    let s' := {| world := w; trace := trace s ++ [Invoked c (forget o)] |} in
    match o with
    | Threw e => (Abrupt (External e), s')
    | Returned p => (Normal (external p), s')
    end.

(** [await p]. *)
Definition await {A : Type} (p : Promise Exn A) : M A :=
  fun s =>
    match p with
    | Fulfilled a => (Normal a, s)
    | Rejected e => (Abrupt e, s)
    | Pending => (Stuck, s)
    end.

Definition elizaLogger_success (message : string) : M unit :=
  emit (ElizaSuccess message).

Definition elizaLogger_error (message : string) (error : Exn) : M unit :=
  emit (ElizaError message error).

Definition logger_error (message : string) (error : Exn) : M unit :=
  emit (LoggerError message error).

(** [res.status(code).json(body)]; the response object is taken to
    accept it. *)
Definition respond (code : nat) (body : Value) : M unit :=
  emit (Responded code body).

End Core.

Arguments Normal {X A} a.
Arguments Abrupt {X A} e.
Arguments Stuck {X A}.
Arguments Invoked {X} c o.
Arguments ElizaSuccess {X} message.
Arguments ElizaError {X} message error.
Arguments LoggerError {X} message error.
Arguments Responded {X} code body.
Arguments ret {X A} a _.
Arguments throw {X A} e _.
Arguments await {X A} p _.
Arguments forget {X A} o.
Arguments external {X A} p.
Arguments elizaLogger_success {X} message _.
Arguments elizaLogger_error {X} message error _.
Arguments logger_error {X} message error _.
Arguments respond {X} code body _.

Declare Scope js_scope.
Delimit Scope js_scope with js.
Notation "x <- m ;; k" := (bind m (fun x => k))
  (at level 100, m at next level, right associativity) : js_scope.
Notation "m ;;; k" := (bind m (fun _ => k))
  (at level 100, right associativity) : js_scope.
Open Scope js_scope.

(** ** The façade: [class SocialService] *)

Section Facade.

Variable X : Collaborators.

Record SocialService : Type := {
  twitterService : option (TwitterService X);
  discordService : option (DiscordService X);
  dataProcessor : MarketDataProcessor X;
  jupiterService : JupiterPriceV2Service X
}.

Definition Config : Type := SocialConfig (AI X).

(** [config.helius?.apiKey]. *)
Definition optional_apiKey (config : Config) : option string :=
  match helius config with
  | Some h => Some (helius_apiKey h)
  | None => None
  end.

(** [config.helius.apiKey]: a [TypeError] when [config.helius] is
    [undefined]. *)
Definition required_apiKey (config : Config) : M X string :=
  match helius config with
  | Some h => ret (helius_apiKey h)
  | None => throw TypeError
  end.

(** [config.redis?.host], [config.redis?.port], [config.redis?.password]. *)
Definition redis_host (config : Config) : option string :=
  match redis config with Some r => host r | None => None end.
Definition redis_port (config : Config) : option number :=
  match redis config with Some r => port r | None => None end.
Definition redis_password (config : Config) : option string :=
  match redis config with Some r => password r | None => None end.

(** The object literal of lines 64-70, written again at lines 82-88. *)
Definition redis_options (config : Config) : RedisOptions :=
  {| ro_host := or_literal (or_string (redis_host config) (env X "REDIS_HOST")) "";
     ro_port := or_number (redis_port config)
                  (parseInt X (or_literal (env X "REDIS_PORT") "6379"));
     ro_password :=
       or_literal (or_string (redis_password config) (env X "REDIS_PASSWORD")) "";
     ro_keyPrefix := "jupiter-price:";
     ro_enableCircuitBreaker := true |}.

Definition jupiter_options (config : Config) : JupiterOptions :=
  {| jo_redis := redis_options config;
     jo_rpcConnection :=
       {| rpc_url := or_literal (env X "SOLANA_RPC_URL") "";
          rpc_walletPublicKey := or_literal (env X "SOLANA_PUBLIC_KEY") "" |} |}.

(** The first argument of [new TwitterService] (lines 105-124); [key] is
    [config.helius.apiKey].  [contentRules] is an object when present,
    hence truthy. *)
Definition twitter_options (t : TwitterConfig) (key : string) : TwitterOptions :=
  {| to_apiKey := apiKey t;
     to_apiSecret := apiSecret t;
     to_accessToken := accessToken t;
     to_accessSecret := accessSecret t;
     to_bearerToken := bearerToken t;
     to_mockMode := nullish (mockMode t) false;
     to_maxRetries := nullish (maxRetries t) 0%float;
     to_retryDelay := nullish (retryDelay t) 0%float;
     to_baseUrl := "https://api.twitter.com";
     to_contentRules :=
       nullish (contentRules t)
         {| maxEmojis := 0%float; maxHashtags := 0%float; minInterval := 0%float |};
     to_oauthClientId := oauthClientId t;
     to_oauthClientSecret := oauthClientSecret t;
     to_marketDataConfig :=
       {| heliusApiKey := key;
          updateInterval := 0%float;
          volatilityThreshold := 0%float |};
     to_tokenAddresses := [] |}.

Definition discord_options (d : DiscordConfig) (ai : AI X) : DiscordOptions (AI X) :=
  {| do_token := token d; do_guildId := guildId d; do_aiService := ai |}.

(** [constructor(config: SocialConfig)], lines 58-137.  A normal
    completion carries the object built; an abrupt one means [new
    SocialService(config)] threw and no object exists. *)
Definition constructor (config : Config) : M X SocialService :=
  if negb (truthy_opt_string (optional_apiKey config)) then
    throw (Error "Helius API key is required")
  else
    redisService <- new (new_RedisCacheService X (redis_options config)) ;;
    connection <- new (new_Connection X "") ;;
    publicKey <- new (new_PublicKey X "") ;;
    wallet <- new (new_WalletProvider X connection publicKey) ;;
    tokenProvider <-
      new (new_TokenProvider X "" wallet redisService
             {| tpo_apiKey := or_literal (env X "API_KEY") "" |}) ;;
    jupiter <-
      new (new_JupiterPriceV2Service X (jupiter_options config)
             tokenProvider redisService) ;;
    key <- required_apiKey config ;;
    processor <-
      new (new_MarketDataProcessor X key
             "https://tokens.jup.ag/tokens?tags=verified"
             (env X "SOLANA_PUBLIC_KEY")) ;;
    tw <- match twitter config with
          | Some t =>
              service <-
                new (new_TwitterService X (twitter_options t key)
                       (services_ai config) processor) ;;
              ret (Some service)
          | None => ret None
          end ;;
    dc <- match discord config with
          | Some d =>
              service <-
                new (new_DiscordService X (discord_options d (services_ai config))) ;;
              ret (Some service)
          | None => ret None
          end ;;
    ret {| twitterService := tw;
           discordService := dc;
           dataProcessor := processor;
           jupiterService := jupiter |}.

(** [async initialize()], lines 139-158. *)
Definition initialize (this : SocialService) : M X unit :=
  try_catch
    (initPromises <-
       match twitterService this with
       | Some tw =>
           p <- invoke TwitterInitialize (twitter_initialize X tw) ;;
           ret [p]
       | None => ret []
       end ;;
     initPromises <-
       match discordService this with
       | Some _ => ret (initPromises ++ [Fulfilled tt])%list
       | None => ret initPromises
       end ;;
     _ <- await (Promise_all initPromises) ;;
     elizaLogger_success "Social services initialized successfully")
    (fun error =>
       elizaLogger_error "Failed to initialize social services:" error ;;;
       throw error).

(** [async getCommunityMetrics()], lines 160-166. *)
Definition getCommunityMetrics (this : SocialService) : M X SocialMetrics :=
  ret {| followers := 1000%float; engagement := 0.75%float; activity := "High" |}.

(** [async send(content)], lines 168-188. *)
Definition send (this : SocialService) (content : string) : M X unit :=
  promises <-
    match twitterService this with
    | Some tw =>
        try_catch
          (p <- invoke (Tweet content None) (tweet X tw content None) ;;
           _ <- await p ;;
           ret [Fulfilled tt])
          (fun error =>
             elizaLogger_error "Failed to send tweet:" error ;;;
             ret [Rejected error])
    | None => ret []
    end ;;
  promises <-
    match discordService this with
    | Some dc =>
        p <- invoke (DiscordSendMessage "System" content)
               (discord_sendMessage X dc "System" content) ;;
        ret (promises ++ [p])%list
    | None => ret promises
    end ;;
  _ <- await (Promise_all promises) ;;
  ret tt.

(** [async sendMessage(platform, messageId, content)], lines 190-210. *)
Definition sendMessage (this : SocialService) (platform messageId content : string)
  : M X unit :=
  try_catch
    (let name := toLowerCase platform in
     if name =? "twitter" then
       match twitterService this with
       | Some tw =>
           p <- invoke (Tweet content (Some messageId))
                  (tweet X tw content (Some messageId)) ;;
           await p
       | None => ret tt
       end
     else if name =? "discord" then
       match discordService this with
       | Some dc =>
           p <- invoke (DiscordSendMessage messageId content)
                  (discord_sendMessage X dc messageId content) ;;
           await p
       | None => ret tt
       end
     else
       throw (Error ("Unsupported platform: " ++ platform)))
    (fun error =>
       elizaLogger_error ("Failed to send message to " ++ platform ++ ":") error ;;;
       throw error).

End Facade.

(** ** The HTTP server: [createServer] *)

Section Server.

Variable X : Collaborators.

(** [app.post('/agents', ...)], lines 237-246; [body] is [req.body]. *)
Definition post_agents (body : Value) : M X unit :=
  try_catch
    (p <- invoke (RegisterAgent body) (registerAgent X body) ;;
     agent <- await p ;;
     respond 201 agent)
    (fun error =>
       logger_error "Error registering agent:" error ;;;
       respond 500 (Object [("error", Str "Failed to register agent")])).

(** [const { status, result } = req.body]: a [TypeError] on [undefined]
    and [null]; an array, a string, a number or a boolean has neither
    property. *)
Definition status_and_result (body : Value) : M X (Value * Value) :=
  match body with
  | Undefined | Null => throw TypeError
  | Object props => ret (own_property props "status", own_property props "result")
  | _ => ret (Undefined, Undefined)
  end.

(** [app.patch('/tasks/:taskId/status', ...)], lines 258-269; [taskId]
    is [req.params.taskId], which the router binds from the path. *)
Definition patch_task_status (taskId : string) (body : Value) : M X unit :=
  try_catch
    (sr <- status_and_result body ;;
     p <- invoke (UpdateTaskStatus taskId (fst sr) (snd sr))
            (updateTaskStatus X taskId (fst sr) (snd sr)) ;;
     _ <- await p ;;
     respond 200 (Object [("message", Str "Task status updated")]))
    (fun error =>
       logger_error "Error updating task status:" error ;;;
       respond 500 (Object [("error", Str "Failed to update task status")])).

End Server.

(** ** Vocabulary of the statements *)

(** A call on a collaborator failed with [e]: it threw [e], or the
    promise it returned was rejected with [e]. *)
Definition failed_with {F A : Type} (o : Outcome F A) (e : F) : Prop :=
  o = Threw e \/ o = Returned (Rejected e).

(** The market-data key is absent from a configuration: there is no
    [helius] section, or the key it holds is the empty string. *)
Definition apiKey_absent {AI : Type} (config : SocialConfig AI) : Prop :=
  match helius config with
  | Some h => helius_apiKey h = ""
  | None => True
  end.

(** The error the constructor creates at line 60. *)
Definition key_required {X : Collaborators} : Exn X :=
  Error "Helius API key is required".

(** An event with the wording of its log line blanked. *)
Definition unworded {X : Collaborators} (ev : Event X) : Event X :=
  match ev with
  | ElizaError _ error => ElizaError "" error
  | LoggerError _ error => LoggerError "" error
  | ElizaSuccess _ => ElizaSuccess ""
  | other => other
  end.

(** Two runs that differ at most in the wording of their log lines: they
    end the same way, leave the outside world in the same state and
    produce the same events in the same order. *)
Definition same_but_wording {X : Collaborators} {A : Type}
  (r1 r2 : Completion X A * St X) : Prop :=
  fst r1 = fst r2 /\
  world (snd r1) = world (snd r2) /\
  map unworded (trace (snd r1)) = map unworded (trace (snd r2)).

(** A computation that ends normally or with what a collaborator
    threw: it neither hangs nor throws an error of this module. *)
Definition clean {X : Collaborators} {A : Type} (m : M X A) : Prop :=
  forall st,
    (exists e st', m st = (Abrupt (External e), st')) \/
    (exists a st', m st = (Normal a, st')).


(** ** Scripted collaborators

    Collaborators whose constructors always succeed, whose environment
    is empty and whose four methods end the way the script says.  The
    world counts the method calls made. *)
Definition scripted
  (on_tweet on_discord : Outcome string unit)
  (on_register : Outcome string Value)
  (on_update : Outcome string unit) : Collaborators :=
  {| World := nat;
     Foreign := string;
     AI := unit;
     RedisCacheService := unit;
     Connection := unit;
     PublicKey := unit;
     WalletProvider := unit;
     TokenProvider := unit;
     JupiterPriceV2Service := unit;
     MarketDataProcessor := unit;
     TwitterService := unit;
     DiscordService := unit;
     env := fun _ => None;
     parseInt := fun _ => 6379%float;
     new_RedisCacheService := fun _ w => (inr tt, w);
     new_Connection := fun _ w => (inr tt, w);
     new_PublicKey := fun _ w => (inr tt, w);
     new_WalletProvider := fun _ _ w => (inr tt, w);
     new_TokenProvider := fun _ _ _ _ w => (inr tt, w);
     new_JupiterPriceV2Service := fun _ _ _ w => (inr tt, w);
     new_MarketDataProcessor := fun _ _ _ w => (inr tt, w);
     new_TwitterService := fun _ _ _ w => (inr tt, w);
     new_DiscordService := fun _ w => (inr tt, w);
     twitter_initialize := fun _ w => (Returned (Fulfilled tt), S w);
     tweet := fun _ _ _ w => (on_tweet, S w);
     discord_sendMessage := fun _ _ _ w => (on_discord, S w);
     registerAgent := fun _ w => (on_register, S w);
     updateTaskStatus := fun _ _ _ w => (on_update, S w) |}.

Definition ok : Outcome string unit := Returned (Fulfilled tt).
Definition boom : Outcome string unit := Returned (Rejected "boom").

(** Collaborators for which every call succeeds. *)
Definition calm : Collaborators := scripted ok ok (Returned (Fulfilled Null)) ok.

(** A configuration holding the market-data key and nothing else. *)
Definition key_only (k : string) : Config calm :=
  {| services_ai := tt;
     discord := None;
     twitter := None;
     helius := Some {| helius_apiKey := k |};
     redis := None |}.

Definition after (X : Collaborators) (w : World X) (t : list (Event X)) : St X :=
  {| world := w; trace := t |}.
Arguments after : clear implicits.

Definition fresh (X : Collaborators) (w : World X) : St X := after X w [].

(** A façade over given clients. *)
Definition facade (X : Collaborators) (tw : option (TwitterService X))
  (dc : option (DiscordService X)) (p : MarketDataProcessor X)
  (j : JupiterPriceV2Service X) : SocialService X :=
  {| twitterService := tw; discordService := dc; dataProcessor := p; jupiterService := j |}.

(** Collaborators whose chat client rejects every send, whose twitter
    client rejects every tweet, and whose coordination service is down. *)
Definition chat_down : Collaborators := scripted ok boom (Returned (Fulfilled Null)) ok.
Definition tweet_down : Collaborators := scripted boom ok (Returned (Fulfilled Null)) ok.
Definition registry_down : Collaborators := scripted ok ok (Threw "db") boom.

(** Collaborators whose tweets never settle and whose chat client
    rejects every send. *)
Definition tweet_pending_chat_down : Collaborators :=
  scripted (Returned Pending) boom (Returned (Fulfilled Null)) ok.

Definition alice : Value :=
  Object [("id", Str "a1"); ("name", Str "alice")].

(** Collaborators whose coordination service registers every agent as
    [alice]. *)
Definition registry_up : Collaborators := scripted ok ok (Returned (Fulfilled alice)) ok.

(** A configuration with every section filled in. *)
Definition full_config : Config calm :=
  {| services_ai := tt;
     discord := Some {| token := "t0k"; guildId := "g1" |};
     twitter :=
       Some {| oauthClientId := "id"; oauthClientSecret := "cs"; apiKey := "ak";
               apiSecret := "as"; accessToken := "at"; accessSecret := "ac";
               bearerToken := "bt"; mockMode := None; maxRetries := None;
               retryDelay := Some 250%float; contentRules := None |};
     helius := Some {| helius_apiKey := "k3y" |};
     redis := Some {| host := Some "cache"; port := Some 0%float; password := None |} |}.

(** ** The remaining routes of [createServer]

    [GET /health], [POST /tasks] and [GET /agents/:agentId/metrics] call
    two more methods of the coordination service.  They are taken as a
    second bundle of parameters, and the trace of these handlers holds,
    besides the events above, the calls on those two methods. *)

Record Coordination (X : Collaborators) : Type := {
  assignTask : Value -> Value -> Method (World X) (Foreign X) Value;
  getAgentMetrics : string -> Method (World X) (Foreign X) Value
}.

(** The key of an array element or of a character of a string:
    [String(i)]. *)
Definition index_key (i : nat) : string :=
  NilEmpty.string_of_uint (Nat.to_uint i).

Fixpoint indexed (i : nat) (items : list Value) : list (string * Value) :=
  match items with
  | [] => []
  | v :: rest => (index_key i, v) :: indexed (S i) rest
  end.

(** The characters of a string, each as a string of length one (the
    bytes, in this embedding). *)
Definition characters (s : string) : list Value :=
  map (fun c => Str (String c EmptyString)) (list_ascii_of_string s).

(** The own enumerable properties of a value, in the order the engine
    lists them, or nothing for [undefined] and [null], which have none
    and cannot be destructured.  The [length] of an array or of a string
    is not enumerable. *)
Definition own_enumerable (v : Value) : option (list (string * Value)) :=
  match v with
  | Undefined | Null => None
  | Boolean _ | Number _ => Some []
  | Str s => Some (indexed 0 (characters s))
  | Array items => Some (indexed 0 items)
  | Object props => Some props
  end.

(** The properties left by a rest pattern that names [key]. *)
Fixpoint without_key (key : string) (props : list (string * Value))
  : list (string * Value) :=
  match props with
  | [] => []
  | (k, v) :: rest =>
      if k =? key then without_key key rest else (k, v) :: without_key key rest
  end.

Section Routes.

Variable X : Collaborators.
Variable C : Coordination X.

Inductive RouteCall : Type :=
| AssignTask (taskData agentId : Value)
| GetAgentMetrics (agentId : string).

Inductive RouteEvent : Type :=
| Plain (ev : Event X)
| InvokedRoute (c : RouteCall) (o : Outcome (Foreign X) unit).

Record RouteSt : Type := {
  r_world : World X;
  r_trace : list RouteEvent
}.

Definition R (A : Type) : Type := RouteSt -> Completion X A * RouteSt.

(** A computation of the monad above, run inside a route: its events
    are appended as they are. *)
Definition lift {A : Type} (m : M X A) : R A :=
  fun s =>
    let (c, s') := m {| world := r_world s; trace := [] |} in
    (c, {| r_world := world s'; r_trace := r_trace s ++ map Plain (trace s') |}).

Definition r_bind {A B : Type} (m : R A) (k : A -> R B) : R B :=
  fun s =>
    match m s with
    | (Normal a, s') => k a s'
    | (Abrupt e, s') => (Abrupt e, s')
    | (Stuck, s') => (Stuck, s')
    end.

Definition r_try_catch {A : Type} (m : R A) (h : Exn X -> R A) : R A :=
  fun s =>
    match m s with
    | (Abrupt e, s') => h e s'
    | r => r
    end.

Definition r_invoke {A : Type} (c : RouteCall) (f : Method (World X) (Foreign X) A)
  : R (Promise (Exn X) A) :=
  fun s =>
    let (o, w) := f (r_world s) in
    let s' := {| r_world := w; r_trace := r_trace s ++ [InvokedRoute c (forget o)] |} in
    match o with
    | Threw e => (Abrupt (External e), s')
    | Returned p => (Normal (external p), s')
    end.

(** [res.json(body)] on a response whose status was not set: the code
    is 200. *)
Definition respond_ok (body : Value) : M X unit := respond 200 body.


(** [const { agentId, ...taskData } = req.body]: the pair of [agentId]
    and [taskData]. *)
Definition agentId_and_taskData (body : Value) : M X (Value * Value) :=
  match own_enumerable body with
  | None => throw TypeError
  | Some props =>
      ret (own_property props "agentId", Object (without_key "agentId" props))
  end.

(** [app.post('/tasks', ...)], lines 247-257. *)
Definition post_tasks (body : Value) : R unit :=
  r_try_catch
    (r_bind (lift (agentId_and_taskData body)) (fun at_ =>
     r_bind (r_invoke (AssignTask (snd at_) (fst at_))
               (assignTask C (snd at_) (fst at_))) (fun p =>
     r_bind (lift (await p)) (fun task =>
     lift (respond 201 task)))))
    (fun error =>
       r_bind (lift (logger_error "Error creating task:" error)) (fun _ =>
       lift (respond 500 (Object [("error", Str "Failed to create task")])))).

(** [app.get('/agents/:agentId/metrics', ...)], lines 270-280; [agentId]
    is [req.params.agentId]. *)
Definition get_agent_metrics (agentId : string) : R unit :=
  r_try_catch
    (r_bind (r_invoke (GetAgentMetrics agentId) (getAgentMetrics C agentId)) (fun p =>
     r_bind (lift (await p)) (fun metrics =>
     lift (respond_ok metrics))))
    (fun error =>
       r_bind (lift (logger_error "Error fetching agent metrics:" error)) (fun _ =>
       lift (respond 500 (Object [("error", Str "Failed to fetch agent metrics")])))).

End Routes.

Arguments Plain {X} ev.
Arguments InvokedRoute {X} c o.

(** ** More vocabulary *)

(** A computation that writes nothing to the trace. *)
Definition quiet {X : Collaborators} {A : Type} (m : M X A) : Prop :=
  forall st, trace (snd (m st)) = trace st.

Definition is_invocation {X : Collaborators} (ev : Event X) : bool :=
  match ev with
  | Invoked _ _ => true
  | _ => false
  end.

Definition is_twitter_call (c : Call) : bool :=
  match c with
  | TwitterInitialize | Tweet _ _ => true
  | _ => false
  end.





(** The world in which [send] calls the chat client: the one the tweet
    left, if there is a twitter client. *)
Definition world_after_tweet {X : Collaborators} (this : SocialService X)
  (content : string) (st : St X) : World X :=
  match twitterService this with
  | Some tw => snd (tweet X tw content None (world st))
  | None => world st
  end.

(** A coordination service whose two further methods end as scripted. *)
Definition scripted_coordination (X : Collaborators)
  (on_assign on_metrics : Outcome (Foreign X) Value) : Coordination X :=
  {| assignTask := fun _ _ w => (on_assign, w);
     getAgentMetrics := fun _ w => (on_metrics, w) |}.

Definition route_fresh (X : Collaborators) (w : World X) : RouteSt X :=
  {| r_world := w; r_trace := [] |}.

Definition route_after (X : Collaborators) (w : World X) (t : list (RouteEvent X))
  : RouteSt X :=
  {| r_world := w; r_trace := t |}.
Arguments route_after : clear implicits.

(** Collaborators whose twitter client never settles a tweet. *)
Definition tweet_pending : Collaborators :=
  scripted (Returned Pending) ok (Returned (Fulfilled Null)) ok.

(** Collaborators with a configured environment: a redis host and an
    empty redis port. *)
Definition with_env : Collaborators :=
  {| World := nat;
     Foreign := string;
     AI := unit;
     RedisCacheService := unit;
     Connection := unit;
     PublicKey := unit;
     WalletProvider := unit;
     TokenProvider := unit;
     JupiterPriceV2Service := unit;
     MarketDataProcessor := unit;
     TwitterService := unit;
     DiscordService := unit;
     env := fun name =>
              if name =? "REDIS_HOST" then Some "redis.internal"
              else if name =? "REDIS_PORT" then Some ""
              else None;
     parseInt := fun text => if text =? "6379" then 6379%float else 0%float;
     new_RedisCacheService := fun _ w => (inr tt, w);
     new_Connection := fun _ w => (inr tt, w);
     new_PublicKey := fun _ w => (inr tt, w);
     new_WalletProvider := fun _ _ w => (inr tt, w);
     new_TokenProvider := fun _ _ _ _ w => (inr tt, w);
     new_JupiterPriceV2Service := fun _ _ _ w => (inr tt, w);
     new_MarketDataProcessor := fun _ _ _ w => (inr tt, w);
     new_TwitterService := fun _ _ _ w => (inr tt, w);
     new_DiscordService := fun _ w => (inr tt, w);
     twitter_initialize := fun _ w => (Returned (Fulfilled tt), S w);
     tweet := fun _ _ _ w => (ok, S w);
     discord_sendMessage := fun _ _ _ w => (ok, S w);
     registerAgent := fun _ w => (Returned (Fulfilled Null), S w);
     updateTaskStatus := fun _ _ _ w => (ok, S w) |}.

(** A configuration for [with_env] whose redis section sets either
    nothing useful (an empty host, port 0) or a host and a port. *)
Definition redis_config (h : option string) (p : option number) : Config with_env :=
  {| services_ai := tt;
     discord := None;
     twitter := None;
     helius := Some {| helius_apiKey := "k3y" |};
     redis := Some {| host := h; port := p; password := None |} |}.

Definition scan_task : list (string * Value) :=
  [("kind", Str "scan"); ("agentId", Str "a1"); ("depth", Number 2%float)].

Definition coordination_up : Coordination calm :=
  scripted_coordination calm (Returned (Fulfilled alice)) (Returned (Fulfilled alice)).

Definition boom_db : Outcome string unit := Returned (Rejected "db").

Definition coordination_down : Coordination calm :=
  scripted_coordination calm (Threw "db") (Returned (Rejected "db")).

(** ** Properties of the façade *)

Ltac run :=
  unfold elizaLogger_error, elizaLogger_success, logger_error, respond;
  unfold bind, try_catch, invoke, await, new, emit, ret, throw; simpl.

Section FacadeFacts.

Variable X : Collaborators.

Lemma truthy_string_spec (s : string) : truthy_string s = false <-> s = "".
Proof.
  unfold truthy_string. destruct (String.eqb_spec s ""); simpl; split; congruence.
Qed.

(** The guard of line 59 fires exactly on the configurations without a
    key. *)
Lemma guard_spec (config : Config X) :
  truthy_opt_string (optional_apiKey config) = false <-> apiKey_absent config.
Proof.
  unfold optional_apiKey, apiKey_absent.
  destruct (helius config) as [h|]; simpl.
  - apply truthy_string_spec.
  - split; trivial.
Qed.

Lemma clean_ret {A : Type} (a : A) : clean (X:=X) (ret a).
Proof. intros st. right. unfold ret. eauto. Qed.

Lemma clean_new {A : Type} (c : Ctor (World X) (Foreign X) A) : clean (X:=X) (new c).
Proof.
  intros st. unfold new. destruct (c (world st)) as [[e|a] w]; [left | right]; eauto.
Qed.

Lemma clean_bind {A B : Type} (m : M X A) (k : A -> M X B) :
  clean m -> (forall a, clean (k a)) -> clean (bind m k).
Proof.
  intros Hm Hk st. unfold bind.
  destruct (Hm st) as [(e & st' & E)|(a & st' & E)]; rewrite E.
  - left. eauto.
  - apply Hk.
Qed.

Lemma constructor_with_key (config : Config X) :
  ~ apiKey_absent config -> clean (constructor config).
Proof.
  intros Hkey. unfold constructor.
  destruct (truthy_opt_string (optional_apiKey config)) eqn:G;
    [ | exfalso; apply Hkey, guard_spec, G ].
  cbn [negb].
  assert (Hh : exists h, helius config = Some h).
  { unfold optional_apiKey in G. destruct (helius config); [eauto | discriminate]. }
  destruct Hh as [h Hh].
  unfold required_apiKey. rewrite Hh.
  repeat (apply clean_bind; [ | intros ? ]);
    try apply clean_new; try apply clean_ret.
  - destruct (twitter config);
      [ apply clean_bind; [apply clean_new | intros; apply clean_ret]
      | apply clean_ret ].
  - destruct (discord config);
      [ apply clean_bind; [apply clean_new | intros; apply clean_ret]
      | apply clean_ret ].
Qed.

(** C1. [new SocialService(config)] throws the error 'Helius API key is
    required', before anything else is done and whatever the twitter,
    discord and redis sections hold, on every configuration without a
    market-data key (no [helius] section, or an empty key); on every
    configuration with a key it does not throw that error: it returns
    the object, or fails with what a collaborator's constructor threw. *)
Theorem constructor_requires_apiKey (config : Config X) (st : St X) :
  (apiKey_absent config -> constructor config st = (Abrupt key_required, st)) /\
  (~ apiKey_absent config -> fst (constructor config st) <> Abrupt key_required).
Proof.
  split.
  - intros Habs. apply guard_spec in Habs.
    unfold constructor. rewrite Habs. reflexivity.
  - intros Hkey.
    destruct (@constructor_with_key config Hkey st) as [(e & st' & E)|(this & st' & E)];
      rewrite E; simpl; discriminate.
Qed.

(** C2. [getCommunityMetrics()] is fulfilled with the record
    [{followers: 1000, engagement: 0.75, activity: 'High'}], on every
    façade and in every state of the world, and changes nothing. *)
Theorem getCommunityMetrics_fixed (this : SocialService X) (st : St X) :
  getCommunityMetrics this st =
    (Normal {| followers := 1000%float; engagement := 0.75%float; activity := "High" |},
     st).
Proof. reflexivity. Qed.

End FacadeFacts.

Lemma constructor_requires_apiKey_witness :
  constructor (key_only "") (fresh calm 0) = (Abrupt key_required, fresh calm 0) /\
  fst (constructor (key_only "k3y") (fresh calm 0)) <> Abrupt key_required.
Proof.
  split.
  - apply (proj1 (constructor_requires_apiKey (key_only "") (fresh calm 0))).
    reflexivity.
  - apply (proj2 (constructor_requires_apiKey (key_only "k3y") (fresh calm 0))).
    simpl. discriminate.
Defined.

Section SendFacts.

Variable X : Collaborators.

Lemma bind_normal_inv {A B : Type} (m : M X A) (k : A -> M X B) st b st' :
  bind m k st = (Normal b, st') ->
  exists a s, m st = (Normal a, s) /\ k a s = (Normal b, st').
Proof.
  unfold bind. destruct (m st) as [[a|e|] s]; intros H; try discriminate. eauto.
Qed.

(** The constructor builds a client exactly for the platforms that have
    a section in the configuration. *)
Lemma constructor_clients (config : Config X) st this st' :
  constructor config st = (Normal this, st') ->
  (twitter config = None -> twitterService this = None) /\
  (discord config = None -> discordService this = None).
Proof.
  unfold constructor.
  destruct (negb (truthy_opt_string (optional_apiKey config))); [discriminate | ].
  intros H.
  repeat (apply bind_normal_inv in H; destruct H as (? & ? & ? & H)).
  unfold ret in H. injection H as <- _. simpl.
  split; intros Hnone.
  - match goal with
    | Hm : context [twitter config] |- _ =>
        rewrite Hnone in Hm; unfold ret in Hm; congruence
    end.
  - match goal with
    | Hm : context [discord config] |- _ =>
        rewrite Hnone in Hm; unfold ret in Hm; congruence
    end.
Qed.

(** C4. A façade built from a configuration with no twitter and no
    discord section holds neither client, and [send(content)] on it is
    fulfilled for every content without calling anything or logging
    anything. *)
Theorem send_without_clients (config : Config X) (st st' : St X)
  (this : SocialService X) :
  twitter config = None ->
  discord config = None ->
  constructor config st = (Normal this, st') ->
  twitterService this = None /\
  discordService this = None /\
  forall content s, send this content s = (Normal tt, s).
Proof.
  intros Ht Hd Hc.
  destruct (constructor_clients _ _ Hc) as [Htw Hdc].
  specialize (Htw Ht). specialize (Hdc Hd).
  repeat split; trivial.
  intros content s. unfold send. rewrite Htw, Hdc. reflexivity.
Qed.

(** C7. [sendMessage] to a supported platform, in any casing, whose
    client was not built is fulfilled without a call, without a log line
    and without touching the world, for every message id and content. *)
Theorem sendMessage_unconfigured (this : SocialService X)
  (platform messageId content : string) (st : St X) :
  (toLowerCase platform = "twitter" /\ twitterService this = None) \/
  (toLowerCase platform = "discord" /\ discordService this = None) ->
  sendMessage this platform messageId content st = (Normal tt, st).
Proof.
  intros [[Hp Hc]|[Hp Hc]]; unfold sendMessage; rewrite Hp, Hc; reflexivity.
Qed.

(** C5. With both clients built, when the tweet is fulfilled and the
    chat send then fails with [e], [send(content)] is rejected with [e];
    the tweet was called and had completed before the chat client was
    called.  The failure is never reported ahead of the tweet: as long
    as the tweet has not settled, [send] reports nothing and the chat
    client, however it would fail, has not been called. *)
Theorem send_chat_failure (this : SocialService X) tw dc (content : string)
  (st : St X) :
  twitterService this = Some tw ->
  discordService this = Some dc ->
  (forall w1 w2 (o : Outcome (Foreign X) unit) e,
     tweet X tw content None (world st) = (Returned (Fulfilled tt), w1) ->
     discord_sendMessage X dc "System" content w1 = (o, w2) ->
     failed_with o e ->
     send this content st =
       (Abrupt (External e),
        {| world := w2;
           trace := trace st ++
                    [Invoked (Tweet content None) (Returned (Fulfilled tt));
                     Invoked (DiscordSendMessage "System" content) o] |})) /\
  (forall w1,
     tweet X tw content None (world st) = (Returned Pending, w1) ->
     send this content st =
       (Stuck,
        {| world := w1;
           trace := trace st ++
                    [Invoked (Tweet content None) (Returned Pending)] |})).
Proof.
  intros Htw Hdc. split.
  - intros w1 w2 o e Ht Hd Hfail.
    unfold send. rewrite Htw, Hdc. run. rewrite Ht. simpl. rewrite Hd.
    rewrite <- app_assoc. simpl.
    destruct Hfail as [-> | ->]; reflexivity.
  - intros w1 Ht.
    unfold send. rewrite Htw, Hdc. run. rewrite Ht. reflexivity.
Qed.

Lemma forget_unit (o : Outcome (Foreign X) unit) : forget o = o.
Proof. destruct o as [e|[[]|e|]]; reflexivity. Qed.

(** C6. When the tweet fails with [e], [send(content)] logs the failure
    and goes on: nothing is thrown at that point, and the chat client, if
    there is one, is still called.  The call as a whole is rejected all
    the same: with [e], or with what the chat client threw if it threw
    before returning a promise. *)
Theorem send_tweet_failure (this : SocialService X) tw (content : string)
  (st : St X) w1 (o : Outcome (Foreign X) unit) e :
  twitterService this = Some tw ->
  tweet X tw content None (world st) = (o, w1) ->
  failed_with o e ->
  let logged :=
    (trace st ++
     [Invoked (Tweet content None) o;
      ElizaError "Failed to send tweet:" (External e)])%list in
  (exists e', fst (send this content st) = Abrupt e') /\
  (discordService this = None ->
   send this content st = (Abrupt (External e), {| world := w1; trace := logged |})) /\
  (forall dc o2 w2,
     discordService this = Some dc ->
     discord_sendMessage X dc "System" content w1 = (o2, w2) ->
     send this content st =
       (Abrupt (External match o2 with Threw e2 => e2 | Returned _ => e end),
        {| world := w2;
           trace := logged ++ [Invoked (DiscordSendMessage "System" content) o2] |})).
Proof.
  intros Htw Ht Hfail logged.
  assert (Hnone : discordService this = None ->
            send this content st =
              (Abrupt (External e), {| world := w1; trace := logged |})).
  { intros Hdc. unfold send. rewrite Htw, Hdc. run. rewrite Ht. simpl.
    subst logged. rewrite forget_unit.
    destruct Hfail as [-> | ->]; simpl; rewrite <- app_assoc; reflexivity. }
  assert (Hsome : forall dc o2 w2,
            discordService this = Some dc ->
            discord_sendMessage X dc "System" content w1 = (o2, w2) ->
            send this content st =
              (Abrupt (External match o2 with Threw e2 => e2 | Returned _ => e end),
               {| world := w2;
                  trace := logged ++
                           [Invoked (DiscordSendMessage "System" content) o2] |})).
  { intros dc o2 w2 Hdc Hd. unfold send. rewrite Htw, Hdc. run. rewrite Ht. simpl.
    subst logged. rewrite forget_unit.
    destruct Hfail as [-> | ->]; simpl; rewrite Hd, forget_unit;
      rewrite <- (app_assoc (trace st)); simpl;
      destruct o2 as [e2|[[]|e2|]]; reflexivity. }
  split; [ | split; assumption ].
  destruct (discordService this) as [dc|] eqn:Hdc.
  - destruct (discord_sendMessage X dc "System" content w1) as [o2 w2] eqn:Hd.
    rewrite (Hsome dc o2 w2 eq_refl Hd). simpl. eauto.
  - rewrite (Hnone eq_refl). simpl. eauto.
Qed.




Lemma eqb_false_of_neq (s t : string) : s <> t -> (s =? t) = false.
Proof. intros H. apply String.eqb_neq. exact H. Qed.

(** C3, as the code has it.  [sendMessage] dispatches on the lowercased
    platform name.  Under any casing of 'twitter' the call ends the same
    way as under 'twitter' itself (fulfilled, rejected with the same
    error, or waiting), makes the same call on the client and leaves the
    same events in the same order, the one difference being that the
    error line logged on failure quotes the name as the caller wrote it;
    without a failure the two runs are equal.  Likewise for 'discord'.
    Under any other name the call is rejected with the error 'Unsupported
    platform: ' followed by the name as given, after logging it, and
    calls nothing. *)
Theorem sendMessage_dispatch (this : SocialService X)
  (platform messageId content : string) (st : St X) :
  let run_as name := sendMessage this name messageId content st in
  (forall name, name = "twitter" \/ name = "discord" ->
     toLowerCase platform = name ->
     same_but_wording (run_as platform) (run_as name) /\
     ((forall e, fst (run_as name) <> Abrupt e) -> run_as platform = run_as name)) /\
  (toLowerCase platform <> "twitter" ->
   toLowerCase platform <> "discord" ->
   let unsupported : Exn X := Error ("Unsupported platform: " ++ platform) in
   run_as platform =
     (Abrupt unsupported,
      {| world := world st;
         trace := trace st ++
                  [ElizaError ("Failed to send message to " ++ platform ++ ":")
                     unsupported] |})).
Proof.
  intros run_as. subst run_as. split.
  - intros name Hname Hp. unfold sendMessage, same_but_wording.
    rewrite Hp.
    destruct Hname as [-> | ->]; simpl toLowerCase.
    + change ("twitter" =? "twitter") with true. cbv iota.
      destruct (twitterService this) as [tw|]; run; [ | tauto ].
      destruct (tweet X tw content (Some messageId) (world st)) as [o w].
      destruct o as [e|[[]|e|]]; simpl; repeat rewrite map_app; simpl;
        repeat split; trivial; intros Hok; exfalso; eapply Hok; reflexivity.
    + change ("discord" =? "twitter") with false.
      change ("discord" =? "discord") with true. cbv iota.
      destruct (discordService this) as [dc|]; run; [ | tauto ].
      destruct (discord_sendMessage X dc messageId content (world st)) as [o w].
      destruct o as [e|[[]|e|]]; simpl; repeat rewrite map_app; simpl;
        repeat split; trivial; intros Hok; exfalso; eapply Hok; reflexivity.
  - intros Ht Hd unsupported. unfold sendMessage.
    rewrite (eqb_false_of_neq Ht), (eqb_false_of_neq Hd). reflexivity.
Qed.

End SendFacts.

(** ** Properties of the HTTP server *)

Section ServerFacts.

Variable X : Collaborators.

(** C9. [POST /agents] hands [req.body] to [registerAgent] as it is.
    When that call is fulfilled with an agent the response is 201 with
    that agent; when it fails, with whatever error, the error goes to
    the log and the response is 500 with the one body
    [{error: 'Failed to register agent'}]. *)
Theorem post_agents_responses (body : Value) (st : St X)
  (o : Outcome (Foreign X) Value) w :
  registerAgent X body (world st) = (o, w) ->
  let called := Invoked (RegisterAgent body) (forget o) in
  (forall agent,
     o = Returned (Fulfilled agent) ->
     post_agents body st =
       (Normal tt,
        {| world := w; trace := trace st ++ [called; Responded 201 agent] |})) /\
  (forall e,
     failed_with o e ->
     post_agents body st =
       (Normal tt,
        {| world := w;
           trace := trace st ++
                    [called;
                     LoggerError "Error registering agent:" (External e);
                     Responded 500
                       (Object [("error", Str "Failed to register agent")])] |})).
Proof.
  intros Hcall called. subst called.
  split; [intros agent Ho | intros e [Ho | Ho]]; subst o;
    unfold post_agents; run; rewrite Hcall; simpl;
    repeat rewrite <- app_assoc; reflexivity.
Qed.

(** C8. [PATCH /tasks/:taskId/status] with body [{status, result}] calls
    [updateTaskStatus(taskId, status, result)] with exactly these three
    values.  When the call is fulfilled the response is 200 with
    [{message: 'Task status updated'}]; when it fails the error goes to
    the log and the response is 500 with
    [{error: 'Failed to update task status'}]. *)
Theorem patch_task_status_responses (taskId : string) (status result : Value)
  (st : St X) (o : Outcome (Foreign X) unit) w :
  updateTaskStatus X taskId status result (world st) = (o, w) ->
  let body := Object [("status", status); ("result", result)] in
  let called := Invoked (UpdateTaskStatus taskId status result) o in
  (o = Returned (Fulfilled tt) ->
   patch_task_status taskId body st =
     (Normal tt,
      {| world := w;
         trace := trace st ++
                  [called;
                   Responded 200 (Object [("message", Str "Task status updated")])] |})) /\
  (forall e,
     failed_with o e ->
     patch_task_status taskId body st =
       (Normal tt,
        {| world := w;
           trace := trace st ++
                    [called;
                     LoggerError "Error updating task status:" (External e);
                     Responded 500
                       (Object [("error", Str "Failed to update task status")])] |})) /\
  (o = Returned Pending ->
   patch_task_status taskId body st =
     (Stuck, {| world := w; trace := trace st ++ [called] |})).
Proof.
  intros Hcall body called. subst body called.
  repeat split; [intros Ho | intros e [Ho | Ho] | intros Ho]; subst o;
    unfold patch_task_status, status_and_result; run; rewrite Hcall; simpl;
    repeat rewrite <- app_assoc; reflexivity.
Qed.

End ServerFacts.

(** ** Concrete runs *)

(** With every section present both clients are built, the redis
    defaults are taken where the configuration is silent or falsy, and
    the unset twitter knobs become [false] and [0]. *)
Example constructor_full :
  constructor full_config (fresh calm 0) =
    (Normal (facade calm (Some tt) (Some tt) tt tt), fresh calm 0) /\
  ro_host (redis_options full_config) = "cache" /\
  ro_port (redis_options full_config) = 6379%float /\
  ro_password (redis_options full_config) = "" /\
  to_mockMode (twitter_options
                 {| oauthClientId := "id"; oauthClientSecret := "cs"; apiKey := "ak";
                    apiSecret := "as"; accessToken := "at"; accessSecret := "ac";
                    bearerToken := "bt"; mockMode := None; maxRetries := None;
                    retryDelay := Some 250%float; contentRules := None |} "k3y") = false.
Proof. repeat split. Qed.

Example send_both_ok :
  send (facade calm (Some tt) (Some tt) tt tt) "gm" (fresh calm 0) =
    (Normal tt,
     after calm 2
       [@Invoked calm (Tweet "gm" None) ok;
                  @Invoked calm (DiscordSendMessage "System" "gm") ok]).
Proof. reflexivity. Qed.

Example initialize_both_ok :
  initialize (facade calm (Some tt) (Some tt) tt tt) (fresh calm 0) =
    (Normal tt,
     after calm 1
       [@Invoked calm TwitterInitialize ok;
                  ElizaSuccess "Social services initialized successfully"]).
Proof. reflexivity. Qed.

Example toLowerCase_mixed : toLowerCase "TwItTeR-42" = "twitter-42".
Proof. reflexivity. Qed.

Example null_body_is_caught :
  patch_task_status "abc" Null (fresh calm 0) =
    (Normal tt,
     after calm 0
       [@LoggerError calm "Error updating task status:" TypeError;
                  Responded 500
                    (Object [("error", Str "Failed to update task status")])]).
Proof. reflexivity. Qed.

(** ** The statements at concrete inputs *)

Lemma send_without_clients_witness :
  twitterService (facade calm None None tt tt) = None /\
  discordService (facade calm None None tt tt) = None /\
  forall content s, send (facade calm None None tt tt) content s = (Normal tt, s).
Proof.
  apply (@send_without_clients calm (key_only "k3y") (fresh calm 0) (fresh calm 0));
    reflexivity.
Defined.

Lemma sendMessage_unconfigured_witness :
  sendMessage (facade calm None (Some tt) tt tt) "TWITTER" "42" "gm" (fresh calm 0) =
    (Normal tt, fresh calm 0).
Proof.
  apply sendMessage_unconfigured. left. split; reflexivity.
Defined.

Lemma send_chat_failure_witness :
  send (facade chat_down (Some tt) (Some tt) tt tt) "gm" (fresh chat_down 0) =
    (@Abrupt chat_down _ (External "boom"),
     after chat_down 2
       [@Invoked chat_down (Tweet "gm" None) ok;
        @Invoked chat_down (DiscordSendMessage "System" "gm") boom]) /\
  send (facade tweet_pending_chat_down (Some tt) (Some tt) tt tt) "gm"
    (fresh tweet_pending_chat_down 0) =
    (Stuck,
     after tweet_pending_chat_down 1
       [@Invoked tweet_pending_chat_down (Tweet "gm" None) (Returned Pending)]).
Proof.
  split.
  - apply (proj1 (@send_chat_failure chat_down
                    (facade chat_down (Some tt) (Some tt) tt tt)
                    tt tt "gm" (fresh chat_down 0) eq_refl eq_refl)
             1 2 boom "boom");
      try reflexivity.
    right. reflexivity.
  - apply (proj2 (@send_chat_failure tweet_pending_chat_down
                    (facade tweet_pending_chat_down (Some tt) (Some tt) tt tt)
                    tt tt "gm" (fresh tweet_pending_chat_down 0) eq_refl eq_refl)
             1).
    reflexivity.
Defined.

Lemma send_tweet_failure_witness :
  send (facade tweet_down (Some tt) (Some tt) tt tt) "gm" (fresh tweet_down 0) =
    (@Abrupt tweet_down _ (External "boom"),
     after tweet_down 2
       [@Invoked tweet_down (Tweet "gm" None) boom;
                  @ElizaError tweet_down "Failed to send tweet:" (External "boom");
                  @Invoked tweet_down (DiscordSendMessage "System" "gm") ok]).
Proof.
  apply (proj2 (proj2
           (@send_tweet_failure tweet_down (facade tweet_down (Some tt) (Some tt) tt tt)
              tt "gm" (fresh tweet_down 0) 1 boom "boom"
              eq_refl eq_refl (or_intror eq_refl)))
           tt ok 2 eq_refl eq_refl).
Defined.


Lemma sendMessage_dispatch_witness :
  same_but_wording
    (sendMessage (facade tweet_down (Some tt) None tt tt) "TWITTER" "42" "gm"
       (fresh tweet_down 0))
    (sendMessage (facade tweet_down (Some tt) None tt tt) "twitter" "42" "gm"
       (fresh tweet_down 0)) /\
  sendMessage (facade tweet_down (Some tt) None tt tt) "mastodon" "42" "gm"
    (fresh tweet_down 0) =
    (Abrupt (Error "Unsupported platform: mastodon"),
     after tweet_down 0
       [@ElizaError tweet_down "Failed to send message to mastodon:"
                    (Error "Unsupported platform: mastodon")]).
Proof.
  split.
  - apply (proj1 (sendMessage_dispatch (facade tweet_down (Some tt) None tt tt)
                    "TWITTER" "42" "gm" (fresh tweet_down 0)) "twitter").
    + left. reflexivity.
    + reflexivity.
  - apply (proj2 (sendMessage_dispatch (facade tweet_down (Some tt) None tt tt)
                    "mastodon" "42" "gm" (fresh tweet_down 0)));
      simpl; discriminate.
Defined.

(** C3, as stated, fails: when the tweet is rejected, the two casings
    leave different log lines, each quoting the name it was given. *)
Lemma sendMessage_casing_counterexample :
  toLowerCase "TWITTER" = toLowerCase "twitter" /\
  trace (snd (sendMessage (facade tweet_down (Some tt) None tt tt)
                "TWITTER" "42" "gm" (fresh tweet_down 0))) =
    [@Invoked tweet_down (Tweet "gm" (Some "42")) boom;
     @ElizaError tweet_down "Failed to send message to TWITTER:" (External "boom")] /\
  trace (snd (sendMessage (facade tweet_down (Some tt) None tt tt)
                "twitter" "42" "gm" (fresh tweet_down 0))) =
    [@Invoked tweet_down (Tweet "gm" (Some "42")) boom;
     @ElizaError tweet_down "Failed to send message to twitter:" (External "boom")] /\
  sendMessage (facade tweet_down (Some tt) None tt tt) "TWITTER" "42" "gm"
    (fresh tweet_down 0) <>
  sendMessage (facade tweet_down (Some tt) None tt tt) "twitter" "42" "gm"
    (fresh tweet_down 0).
Proof.
  repeat split. intros H. vm_compute in H. discriminate H.
Qed.

Lemma post_agents_responses_witness :
  post_agents (Object [("name", Str "alice")])
    (fresh registry_up 0) =
    (Normal tt,
     after registry_up 1
       [@Invoked registry_up (RegisterAgent (Object [("name", Str "alice")])) ok;
                  Responded 201 alice]) /\
  post_agents (Object [("name", Str "alice")]) (fresh registry_down 0) =
    (Normal tt,
     after registry_down 1
       [@Invoked registry_down (RegisterAgent (Object [("name", Str "alice")])) (Threw "db");
                  @LoggerError registry_down "Error registering agent:" (External "db");
                  Responded 500
                    (Object [("error", Str "Failed to register agent")])]).
Proof.
  split.
  - apply (proj1 (@post_agents_responses registry_up
                    (Object [("name", Str "alice")]) (fresh registry_up 0)
                    (Returned (Fulfilled alice)) 1 eq_refl)).
    reflexivity.
  - apply (proj2 (@post_agents_responses registry_down
                    (Object [("name", Str "alice")]) (fresh registry_down 0)
                    (Threw "db") 1 eq_refl)).
    left. reflexivity.
Defined.

Lemma patch_task_status_responses_witness :
  patch_task_status "abc" (Object [("status", Str "done"); ("result", Object [])])
    (fresh calm 0) =
    (Normal tt,
     after calm 1
       [@Invoked calm (UpdateTaskStatus "abc" (Str "done") (Object [])) ok;
                  Responded 200 (Object [("message", Str "Task status updated")])]) /\
  patch_task_status "abc" (Object [("status", Str "done"); ("result", Object [])])
    (fresh registry_down 0) =
    (Normal tt,
     after registry_down 1
       [@Invoked registry_down (UpdateTaskStatus "abc" (Str "done") (Object [])) boom;
                  @LoggerError registry_down "Error updating task status:" (External "boom");
                  Responded 500
                    (Object [("error", Str "Failed to update task status")])]).
Proof.
  split.
  - apply (proj1 (@patch_task_status_responses calm "abc" (Str "done") (Object [])
                    (fresh calm 0) ok 1 eq_refl)).
    reflexivity.
  - apply (proj1 (proj2 (@patch_task_status_responses registry_down "abc" (Str "done")
                           (Object []) (fresh registry_down 0) boom 1 eq_refl))).
    right. reflexivity.
Defined.

(** ** Further properties of the façade *)

Section ConstructorFacts.

Variable X : Collaborators.

Lemma quiet_ret {A : Type} (a : A) : quiet (X:=X) (ret a).
Proof. intros st. reflexivity. Qed.

Lemma quiet_throw {A : Type} (e : Exn X) : quiet (X:=X) (A:=A) (throw e).
Proof. intros st. reflexivity. Qed.

Lemma quiet_new {A : Type} (c : Ctor (World X) (Foreign X) A) : quiet (X:=X) (new c).
Proof.
  intros st. unfold new. destruct (c (world st)) as [[e|a] w]; reflexivity.
Qed.

Lemma quiet_bind {A B : Type} (m : M X A) (k : A -> M X B) :
  quiet m -> (forall a, quiet (k a)) -> quiet (bind m k).
Proof.
  intros Hm Hk st. unfold bind. specialize (Hm st).
  destruct (m st) as [[a|e|] s]; simpl in *; trivial.
  rewrite Hk. exact Hm.
Qed.

(** X1. The constructor calls no method of a platform client, sends nothing
    and logs nothing, whether it returns or throws: it leaves the trace
    as it found it. *)
Theorem constructor_quiet (config : Config X) (st : St X) :
  trace (snd (constructor config st)) = trace st.
Proof.
  revert st. change (quiet (constructor config)). unfold constructor.
  destruct (negb (truthy_opt_string (optional_apiKey config)));
    [ apply quiet_throw | ].
  repeat (apply quiet_bind; [ | intros ? ]);
    try apply quiet_new; try apply quiet_ret.
  - unfold required_apiKey. destruct (helius config);
      [ apply quiet_ret | apply quiet_throw ].
  - destruct (twitter config);
      [ apply quiet_bind; [apply quiet_new | intros; apply quiet_ret]
      | apply quiet_ret ].
  - destruct (discord config);
      [ apply quiet_bind; [apply quiet_new | intros; apply quiet_ret]
      | apply quiet_ret ].
Qed.

(** X2. When the constructor returns, the object holds a twitter client
    exactly if the configuration has a twitter section, and a chat
    client exactly if it has a discord section. *)
Theorem constructor_builds_configured_clients (config : Config X) (st st' : St X)
  (this : SocialService X) :
  constructor config st = (Normal this, st') ->
  (twitterService this = None <-> twitter config = None) /\
  (discordService this = None <-> discord config = None).
Proof.
  intros Hc. destruct (constructor_clients _ _ Hc) as [Htw Hdc].
  revert Hc. unfold constructor.
  destruct (negb (truthy_opt_string (optional_apiKey config))); [discriminate | ].
  intros H.
  repeat (apply bind_normal_inv in H; destruct H as (? & ? & ? & H)).
  unfold ret in H. injection H as <- _. simpl in *.
  split; (split; [ | assumption ]); intros Hnone; subst.
  - match goal with
    | Hm : context [twitter config] |- _ =>
        destruct (twitter config); [ | reflexivity ];
        apply bind_normal_inv in Hm; destruct Hm as (? & ? & _ & Hm);
        unfold ret in Hm; discriminate
    end.
  - match goal with
    | Hm : context [discord config] |- _ =>
        destruct (discord config); [ | reflexivity ];
        apply bind_normal_inv in Hm; destruct Hm as (? & ? & _ & Hm);
        unfold ret in Hm; discriminate
    end.
Qed.

(** X3. The redis host handed to the cache and to the price service: the
    configured one if it is not empty, else the environment's
    [REDIS_HOST] if that is not empty, else the empty string. *)
Theorem redis_host_precedence (config : Config X) :
  (forall h, redis_host config = Some h -> h <> "" ->
             ro_host (redis_options config) = h) /\
  (redis_host config = None \/ redis_host config = Some "" ->
   (forall e, env X "REDIS_HOST" = Some e -> e <> "" ->
              ro_host (redis_options config) = e) /\
   (env X "REDIS_HOST" = None \/ env X "REDIS_HOST" = Some "" ->
    ro_host (redis_options config) = "")).
Proof.
  unfold redis_options, or_literal, or_string, truthy_opt_string, truthy_string.
  simpl. split.
  - intros h -> Hh. apply String.eqb_neq in Hh. rewrite Hh. simpl. rewrite Hh.
    reflexivity.
  - intros Hcfg.
    assert (Hfalsy : (match redis_host config with
                      | Some s => negb (s =? "")
                      | None => false
                      end) = false).
    { destruct Hcfg as [-> | ->]; reflexivity. }
    rewrite Hfalsy. split.
    + intros e -> He. apply String.eqb_neq in He. rewrite He. reflexivity.
    + intros [-> | ->]; reflexivity.
Qed.

(** X4. The redis port: a configured port that is [0] (or absent) is not
    used; the port is then parsed from the environment's [REDIS_PORT],
    or from the text '6379' when that is unset or empty.  Any other
    configured port that is not [NaN] is used as it is. *)
Theorem redis_port_fallback (config : Config X) :
  (forall p, redis_port config = Some p -> truthy_number p = true ->
             ro_port (redis_options config) = p) /\
  (redis_port config = None \/ redis_port config = Some 0%float ->
   ro_port (redis_options config) =
     parseInt X (or_literal (env X "REDIS_PORT") "6379") /\
   (env X "REDIS_PORT" = None \/ env X "REDIS_PORT" = Some "" ->
    ro_port (redis_options config) = parseInt X "6379")).
Proof.
  unfold redis_options, or_number. simpl. split.
  - intros p -> Hp. rewrite Hp. reflexivity.
  - intros Hcfg.
    assert (Hport : (match redis_port config with
                     | Some x =>
                         if truthy_number x then x
                         else parseInt X (or_literal (env X "REDIS_PORT") "6379")
                     | None => parseInt X (or_literal (env X "REDIS_PORT") "6379")
                     end) = parseInt X (or_literal (env X "REDIS_PORT") "6379")).
    { destruct Hcfg as [-> | ->]; reflexivity. }
    rewrite Hport. split; [reflexivity | ].
    intros [-> | ->]; reflexivity.
Qed.

End ConstructorFacts.

Section InitializeFacts.

Variable X : Collaborators.

(** X5. Without a twitter client [initialize()] is fulfilled at once and
    logs its success line; a chat client, if there is one, is not called
    (it initialises itself when it is built). *)
Theorem initialize_without_twitter (this : SocialService X) (st : St X) :
  twitterService this = None ->
  initialize this st =
    (Normal tt,
     {| world := world st;
        trace := trace st ++
                 [ElizaSuccess "Social services initialized successfully"] |}).
Proof.
  intros Htw. unfold initialize. rewrite Htw.
  destruct (discordService this); reflexivity.
Qed.

(** X6. With a twitter client [initialize()] ends as the client's own
    [initialize()] does.  Fulfilled: the success line is logged.  Failed
    with [e] (thrown or rejected): the error line is logged with [e],
    the success line is not, and the call is rejected with [e] itself.
    Never settled: nothing is logged and the call never returns. *)
Theorem initialize_follows_twitter (this : SocialService X) tw (st : St X)
  (o : Outcome (Foreign X) unit) w :
  twitterService this = Some tw ->
  twitter_initialize X tw (world st) = (o, w) ->
  let called := Invoked TwitterInitialize o in
  (o = Returned (Fulfilled tt) ->
   initialize this st =
     (Normal tt,
      {| world := w;
         trace := trace st ++
                  [called; ElizaSuccess "Social services initialized successfully"] |})) /\
  (forall e,
     failed_with o e ->
     initialize this st =
       (Abrupt (External e),
        {| world := w;
           trace := trace st ++
                    [called;
                     ElizaError "Failed to initialize social services:"
                       (External e)] |})) /\
  (o = Returned Pending ->
   initialize this st = (Stuck, {| world := w; trace := trace st ++ [called] |})).
Proof.
  intros Htw Hcall called. subst called.
  repeat split; [intros Ho | intros e [Ho | Ho] | intros Ho]; subst o;
    unfold initialize; rewrite Htw; run; rewrite Hcall; simpl;
    destruct (discordService this); simpl;
    repeat rewrite <- app_assoc; reflexivity.
Qed.

End InitializeFacts.

Section SendMessageFacts.

Variable X : Collaborators.

(** X7. [sendMessage] to twitter, in any casing, with a twitter client:
    one call [tweet(content, {replyToTweetId: messageId})] and nothing
    else, so [messageId] is the tweet replied to.  A failure is logged
    with the platform name as given and the call is rejected with the
    client's own error; the chat client is not called. *)
Theorem sendMessage_to_twitter (this : SocialService X) tw
  (platform messageId content : string) (st : St X)
  (o : Outcome (Foreign X) unit) w :
  toLowerCase platform = "twitter" ->
  twitterService this = Some tw ->
  tweet X tw content (Some messageId) (world st) = (o, w) ->
  let called := Invoked (Tweet content (Some messageId)) o in
  (o = Returned (Fulfilled tt) ->
   sendMessage this platform messageId content st =
     (Normal tt, {| world := w; trace := trace st ++ [called] |})) /\
  (forall e,
     failed_with o e ->
     sendMessage this platform messageId content st =
       (Abrupt (External e),
        {| world := w;
           trace := trace st ++
                    [called;
                     ElizaError ("Failed to send message to " ++ platform ++ ":")
                       (External e)] |})).
Proof.
  intros Hp Htw Hcall called. subst called.
  split; [intros Ho | intros e [Ho | Ho]]; subst o;
    unfold sendMessage; rewrite Hp, Htw; run; rewrite Hcall; simpl;
    repeat rewrite <- app_assoc; reflexivity.
Qed.

(** X8. [sendMessage] to discord, in any casing, with a chat client: one
    call [sendMessage(messageId, content)] on it and nothing else, so
    here [messageId] is the target the text goes to.  A failure is
    logged and the call is rejected with the client's own error; the
    twitter client is not called. *)
Theorem sendMessage_to_discord (this : SocialService X) dc
  (platform messageId content : string) (st : St X)
  (o : Outcome (Foreign X) unit) w :
  toLowerCase platform = "discord" ->
  discordService this = Some dc ->
  discord_sendMessage X dc messageId content (world st) = (o, w) ->
  let called := Invoked (DiscordSendMessage messageId content) o in
  (o = Returned (Fulfilled tt) ->
   sendMessage this platform messageId content st =
     (Normal tt, {| world := w; trace := trace st ++ [called] |})) /\
  (forall e,
     failed_with o e ->
     sendMessage this platform messageId content st =
       (Abrupt (External e),
        {| world := w;
           trace := trace st ++
                    [called;
                     ElizaError ("Failed to send message to " ++ platform ++ ":")
                       (External e)] |})).
Proof.
  intros Hp Hdc Hcall called. subst called.
  split; [intros Ho | intros e [Ho | Ho]]; subst o;
    unfold sendMessage; rewrite Hp, Hdc; run; rewrite Hcall; simpl;
    repeat rewrite <- app_assoc; reflexivity.
Qed.

(** X9. Whatever the platform name, the clients and the world:
    [sendMessage] makes at most one call on a collaborator, and it
    writes a log line exactly when it is rejected: one line, after the
    call, naming the platform as given and carrying the very error the
    caller gets. *)
Theorem sendMessage_logs_what_it_throws (this : SocialService X)
  (platform messageId content : string) (st : St X) :
  exists calls logs,
    trace (snd (sendMessage this platform messageId content st)) =
      (trace st ++ calls ++ logs)%list /\
    length calls <= 1 /\
    forallb is_invocation calls = true /\
    logs =
      match fst (sendMessage this platform messageId content st) with
      | Abrupt e =>
          [ElizaError ("Failed to send message to " ++ platform ++ ":") e]
      | _ => []
      end.
Proof.
  unfold sendMessage.
  destruct (toLowerCase platform =? "twitter").
  - destruct (twitterService this) as [tw|]; run.
    + destruct (tweet X tw content (Some messageId) (world st)) as [o w].
      exists [Invoked (Tweet content (Some messageId)) (forget o)].
      destruct o as [e|[[]|e|]]; simpl; eexists;
        (split; [ repeat rewrite <- app_assoc; reflexivity | auto ]).
    + exists [], []. rewrite app_nil_r. auto.
  - destruct (toLowerCase platform =? "discord").
    + destruct (discordService this) as [dc|]; run.
      * destruct (discord_sendMessage X dc messageId content (world st)) as [o w].
        exists [Invoked (DiscordSendMessage messageId content) (forget o)].
        destruct o as [e|[[]|e|]]; simpl; eexists;
          (split; [ repeat rewrite <- app_assoc; reflexivity | auto ]).
      * exists [], []. rewrite app_nil_r. auto.
    + run. exists []. eexists. split; [ reflexivity | auto ].
Qed.

End SendMessageFacts.

Section BroadcastFacts.

Variable X : Collaborators.

(** X10. [send(content)] is fulfilled exactly when the send of every client
    the façade holds is fulfilled: the tweet, and then the chat send
    made in the world the tweet left. *)
Theorem send_fulfilled_iff (this : SocialService X) (content : string) (st : St X) :
  fst (send this content st) = Normal tt <->
  (forall tw, twitterService this = Some tw ->
              fst (tweet X tw content None (world st)) = Returned (Fulfilled tt)) /\
  (forall dc, discordService this = Some dc ->
              fst (discord_sendMessage X dc "System" content
                     (world_after_tweet this content st)) =
                Returned (Fulfilled tt)).
Proof.
  unfold send, world_after_tweet.
  destruct (twitterService this) as [tw|], (discordService this) as [dc|]; run.
  all: try (destruct (tweet X tw content None (world st)) as [o1 w1] eqn:Ht;
            destruct o1 as [e1|[[]|e1|]]; simpl).
  all: try match goal with
           | |- context [discord_sendMessage X ?d "System" ?c ?w] =>
               destruct (discord_sendMessage X d "System" c w)
                 as [o2 w2] eqn:Hd;
               destruct o2 as [e2|[[]|e2|]]; simpl
           end.
  all: split.
  all: try (intros H; discriminate H).
  all: try (intros _; split; intros ? Heq; try discriminate Heq;
            injection Heq as <-; simpl; try rewrite Ht; simpl;
            try rewrite Hd; reflexivity).
  all: intros [H1 H2];
    try specialize (H1 _ eq_refl); try specialize (H2 _ eq_refl);
    simpl in *; try rewrite Ht in *; simpl in *; try rewrite Hd in *;
    simpl in *; try discriminate; reflexivity.
Qed.

(** X11. The two sends of [send] are made one after the other, not side by
    side: while the tweet is not settled the chat client is not called,
    so a tweet that never settles keeps [send] waiting and the chat
    message is never sent. *)
Theorem send_waits_for_tweet (this : SocialService X) tw (content : string)
  (st : St X) w :
  twitterService this = Some tw ->
  tweet X tw content None (world st) = (Returned Pending, w) ->
  send this content st =
    (Stuck,
     {| world := w;
        trace := trace st ++ [Invoked (Tweet content None) (Returned Pending)] |}).
Proof.
  intros Htw Hcall. unfold send. rewrite Htw. run. rewrite Hcall. reflexivity.
Qed.

Ltac sort_tweets Hin :=
  repeat rewrite in_app_iff in Hin; simpl in Hin;
  repeat match goal with
         | H : _ \/ _ |- _ => destruct H
         end;
  try contradiction; try discriminate;
  first
    [ left; assumption
    | right;
      match goal with
      | H : Invoked _ _ = Invoked _ _ |- _ => injection H; intros; subst; auto
      | H : ElizaError _ _ = ElizaError _ _ |- _ =>
          injection H; intros; subst; eauto
      end ].

(** X12. A tweet that [send(content)] makes carries [content] and no reply
    target. *)
Theorem send_tweets_without_reply (this : SocialService X) (content : string)
  (st : St X) (text : string) (reply : option string) (o : Outcome (Foreign X) unit) :
  In (Invoked (Tweet text reply) o) (trace (snd (send this content st))) ->
  In (Invoked (Tweet text reply) o) (trace st) \/
  (text = content /\ reply = None).
Proof.
  unfold send.
  destruct (twitterService this) as [tw|], (discordService this) as [dc|]; run;
    repeat match goal with
           | |- context [tweet X ?t ?c None (world st)] =>
               destruct (tweet X t c None (world st)) as [[?|[[]|?|]] ?]; simpl
           end;
    repeat match goal with
           | |- context [discord_sendMessage X ?d ?a ?b ?w] =>
               destruct (discord_sendMessage X d a b w) as [[?|[[]|?|]] ?]; simpl
           end;
    intros Hin; sort_tweets Hin.
Qed.

(** X13. The only line [send] ever logs is 'Failed to send tweet:', with the
    error of a tweet that failed.  A failure of the chat client is not
    logged by [send]; it only rejects the call. *)
Theorem send_logs_only_tweet_failures (this : SocialService X) (content : string)
  (st : St X) (ev : Event X) :
  In ev (trace (snd (send this content st))) ->
  is_invocation ev = false ->
  In ev (trace st) \/
  exists tw e,
    twitterService this = Some tw /\
    failed_with (fst (tweet X tw content None (world st))) e /\
    ev = ElizaError "Failed to send tweet:" (External e).
Proof.
  unfold send, failed_with.
  destruct (twitterService this) as [tw|], (discordService this) as [dc|]; run;
    repeat match goal with
           | |- context [tweet X ?t ?c None (world st)] =>
               destruct (tweet X t c None (world st)) as [[?|[[]|?|]] ?] eqn:Ht;
               simpl
           end;
    repeat match goal with
           | |- context [discord_sendMessage X ?d ?a ?b ?w] =>
               destruct (discord_sendMessage X d a b w) as [[?|[[]|?|]] ?]; simpl
           end;
    intros Hin Hlog;
    repeat rewrite in_app_iff in Hin; simpl in Hin;
    repeat match goal with
           | H : _ \/ _ |- _ => destruct H
           end;
    try contradiction; subst; try discriminate Hlog;
    first
      [ left; assumption
      | right; eexists; eexists;
        split; [ reflexivity | split; [ | reflexivity ] ];
        rewrite Ht; simpl; auto ].
Qed.

End BroadcastFacts.

Section OptionalPlatformFacts.

Variable X : Collaborators.

Ltac old_event Hin Hc :=
  repeat rewrite in_app_iff in Hin; simpl in Hin;
  repeat match goal with
         | H : _ \/ _ |- _ => destruct H
         end;
  try contradiction; try discriminate; try assumption;
  match goal with
  | H : Invoked _ _ = Invoked _ _ |- _ =>
      injection H; intros; subst; simpl in Hc; discriminate Hc
  end.

(** X14. A façade built from a configuration without a twitter section
    never calls the twitter client, whichever of [send], [sendMessage]
    and [initialize] is called on it, with whatever arguments. *)
Theorem no_twitter_section_no_twitter_call (config : Config X) (st0 st1 : St X)
  (this : SocialService X) :
  twitter config = None ->
  constructor config st0 = (Normal this, st1) ->
  forall (st : St X) (c : Call) (o : Outcome (Foreign X) unit),
    is_twitter_call c = true ->
    (forall content,
       In (Invoked c o) (trace (snd (send this content st))) ->
       In (Invoked c o) (trace st)) /\
    (forall platform messageId content,
       In (Invoked c o)
          (trace (snd (sendMessage this platform messageId content st))) ->
       In (Invoked c o) (trace st)) /\
    (In (Invoked c o) (trace (snd (initialize this st))) ->
     In (Invoked c o) (trace st)).
Proof.
  intros Hcfg Hc.
  destruct (constructor_clients _ _ Hc) as [Htw _]. specialize (Htw Hcfg).
  intros st c o Hcall. repeat split.
  - intros content. unfold send. rewrite Htw.
    destruct (discordService this) as [dc|]; run.
    + destruct (discord_sendMessage X dc "System" content (world st))
        as [[?|[[]|?|]] ?]; simpl; intros Hin; old_event Hin Hcall.
    + trivial.
  - intros platform messageId content. unfold sendMessage. rewrite Htw.
    destruct (toLowerCase platform =? "twitter"); [ simpl; trivial | ].
    destruct (toLowerCase platform =? "discord").
    + destruct (discordService this) as [dc|]; run; [ | trivial ].
      destruct (discord_sendMessage X dc messageId content (world st))
        as [[?|[[]|?|]] ?]; simpl; intros Hin; old_event Hin Hcall.
    + run. intros Hin. old_event Hin Hcall.
  - unfold initialize. rewrite Htw.
    destruct (discordService this); run; intros Hin; old_event Hin Hcall.
Qed.

End OptionalPlatformFacts.

(** ** Further properties of the HTTP server *)

Section HandlerFacts.

Variable X : Collaborators.


(** X15. [PATCH /tasks/:taskId/status] with no body to destructure
    ([undefined] or [null]): the coordination service is not called, the
    engine's [TypeError] goes to the log and the response is the same
    500 as for a failed update. *)
Theorem patch_task_status_without_body (taskId : string) (body : Value) (st : St X) :
  body = Undefined \/ body = Null ->
  patch_task_status taskId body st =
    (Normal tt,
     {| world := world st;
        trace := trace st ++
                 [LoggerError "Error updating task status:" TypeError;
                  Responded 500
                    (Object [("error", Str "Failed to update task status")])] |}).
Proof.
  intros [-> | ->]; unfold patch_task_status, status_and_result; run;
    rewrite <- app_assoc; reflexivity.
Qed.

(** X16. [PATCH /tasks/:taskId/status] reads nothing of the body but
    [status] and [result], and checks neither: two object bodies that
    agree on these two properties are handled alike, whatever else they
    hold, and a property that is missing is passed on as [undefined]. *)
Theorem patch_task_status_reads_two_fields (taskId : string)
  (props props' : list (string * Value)) (st : St X) :
  own_property props "status" = own_property props' "status" ->
  own_property props "result" = own_property props' "result" ->
  patch_task_status taskId (Object props) st =
  patch_task_status taskId (Object props') st /\
  patch_task_status taskId (Object props) st =
  patch_task_status taskId
    (Object [("status", own_property props "status");
             ("result", own_property props "result")]) st.
Proof.
  intros Hs Hr. unfold patch_task_status, status_and_result.
  unfold bind at 4 8 12 16. unfold ret. simpl. rewrite Hs, Hr.
  split; reflexivity.
Qed.



End HandlerFacts.

Ltac run_route :=
  unfold r_try_catch, r_bind, r_invoke, lift, respond_ok; run.

Section RouteFacts.

Variable X : Collaborators.
Variable C : Coordination X.

(** X18. The rest pattern [{ agentId, ...taskData }]: [taskData] has no
    [agentId] property, and every other property of the body is found
    in it with the value it has in the body. *)
Theorem taskData_lookup (props : list (string * Value)) (key : string) :
  own_property (without_key "agentId" props) "agentId" = Undefined /\
  (key <> "agentId" ->
   own_property (without_key "agentId" props) key = own_property props key).
Proof.
  split.
  - induction props as [|[k v] rest IH]; simpl; [reflexivity | ].
    destruct (k =? "agentId") eqn:E; simpl; [exact IH | ].
    rewrite E. exact IH.
  - intros Hkey. induction props as [|[k v] rest IH]; simpl; [reflexivity | ].
    destruct (k =? "agentId") eqn:E; simpl.
    + apply String.eqb_eq in E. subst k.
      destruct (String.eqb_spec "agentId" key) as [Heq|_];
        [ exfalso; apply Hkey; symmetry; exact Heq | exact IH ].
    + rewrite IH. reflexivity.
Qed.

Lemma without_key_absent (key : string) (props : list (string * Value)) :
  (forall v, ~ In (key, v) props) -> without_key key props = props.
Proof.
  induction props as [|[k v] rest IH]; simpl; intros Habs; [reflexivity | ].
  destruct (String.eqb_spec k key) as [-> | _].
  - exfalso. apply (Habs v). left. reflexivity.
  - rewrite IH; [reflexivity | ]. intros v' Hin. apply (Habs v'). right. exact Hin.
Qed.

Lemma own_property_absent (key : string) (props : list (string * Value)) :
  (forall v, ~ In (key, v) props) -> own_property props key = Undefined.
Proof.
  induction props as [|[k v] rest IH]; simpl; intros Habs; [reflexivity | ].
  destruct (String.eqb_spec k key) as [-> | _].
  - exfalso. apply (Habs v). left. reflexivity.
  - apply IH. intros v' Hin. apply (Habs v'). right. exact Hin.
Qed.

(** X19. [POST /tasks] with an object body calls [assignTask(taskData,
    agentId)], where [agentId] is the body's property of that name and
    [taskData] the body without it.  Fulfilled with a task: response 201
    with that task.  Failed, with whatever error: the error goes to the
    log and the response is 500 with [{error: 'Failed to create task'}]. *)
Theorem post_tasks_responses (props : list (string * Value)) (st : RouteSt X)
  (o : Outcome (Foreign X) Value) w :
  let agentId := own_property props "agentId" in
  let taskData := Object (without_key "agentId" props) in
  assignTask C taskData agentId (r_world st) = (o, w) ->
  let called := InvokedRoute (AssignTask taskData agentId) (forget o) in
  (forall task,
     o = Returned (Fulfilled task) ->
     post_tasks C (Object props) st =
       (Normal tt,
        {| r_world := w;
           r_trace := r_trace st ++ [called; Plain (Responded 201 task)] |})) /\
  (forall e,
     failed_with o e ->
     post_tasks C (Object props) st =
       (Normal tt,
        {| r_world := w;
           r_trace := r_trace st ++
                      [called;
                       Plain (LoggerError "Error creating task:" (External e));
                       Plain (Responded 500
                                (Object [("error", Str "Failed to create task")]))] |})).
Proof.
  intros agentId taskData Hcall called. subst agentId taskData called.
  split; [intros task Ho | intros e [Ho | Ho]]; subst o;
    unfold post_tasks, agentId_and_taskData; run_route;
    rewrite app_nil_r; simpl; rewrite Hcall; simpl;
    repeat rewrite <- app_assoc; reflexivity.
Qed.

(** X20. [POST /tasks] does not require an [agentId]: destructuring an
    object body that has none gives [undefined] as the agent and the
    whole body as the task. *)
Theorem post_tasks_without_agentId (props : list (string * Value)) (st : St X) :
  (forall v, ~ In ("agentId", v) props) ->
  agentId_and_taskData (Object props) st = (Normal (Undefined, Object props), st).
Proof.
  intros Habs. unfold agentId_and_taskData. simpl.
  rewrite (own_property_absent _ _ Habs), (without_key_absent _ _ Habs).
  reflexivity.
Qed.

(** X21. [POST /tasks] with no body to destructure ([undefined] or [null]):
    the coordination service is not called, the [TypeError] goes to the
    log and the response is the 500 of a failed creation. *)
Theorem post_tasks_without_body (body : Value) (st : RouteSt X) :
  body = Undefined \/ body = Null ->
  post_tasks C body st =
    (Normal tt,
     {| r_world := r_world st;
        r_trace := r_trace st ++
                   [Plain (LoggerError "Error creating task:" TypeError);
                    Plain (Responded 500
                             (Object [("error", Str "Failed to create task")]))] |}).
Proof.
  intros [-> | ->]; unfold post_tasks, agentId_and_taskData; run_route;
    rewrite app_nil_r; repeat rewrite <- app_assoc; reflexivity.
Qed.

(** X22. [GET /agents/:agentId/metrics] calls [getAgentMetrics(agentId)].
    Fulfilled: response 200 with the metrics.  Failed, with whatever
    error: the error goes to the log and the response is 500 with
    [{error: 'Failed to fetch agent metrics'}]. *)
Theorem get_agent_metrics_responses (agentId : string) (st : RouteSt X)
  (o : Outcome (Foreign X) Value) w :
  getAgentMetrics C agentId (r_world st) = (o, w) ->
  let called := InvokedRoute (GetAgentMetrics agentId) (forget o) in
  (forall metrics,
     o = Returned (Fulfilled metrics) ->
     get_agent_metrics C agentId st =
       (Normal tt,
        {| r_world := w;
           r_trace := r_trace st ++ [called; Plain (Responded 200 metrics)] |})) /\
  (forall e,
     failed_with o e ->
     get_agent_metrics C agentId st =
       (Normal tt,
        {| r_world := w;
           r_trace := r_trace st ++
                      [called;
                       Plain (LoggerError "Error fetching agent metrics:" (External e));
                       Plain (Responded 500
                                (Object [("error",
                                          Str "Failed to fetch agent metrics")]))] |})).
Proof.
  intros Hcall called. subst called.
  split; [intros metrics Ho | intros e [Ho | Ho]]; subst o;
    unfold get_agent_metrics; run_route; rewrite Hcall; simpl;
    repeat rewrite <- app_assoc; reflexivity.
Qed.




End RouteFacts.

(** ** Further concrete runs *)

Example index_key_decimal : index_key 0 = "0" /\ index_key 12 = "12".
Proof. split; reflexivity. Qed.

(** An array body has no [agentId]; its elements become the properties
    ['0'], ['1'], ... of the task. *)
Example array_body_taskData :
  agentId_and_taskData (Array [Str "a"; Null]) (fresh calm 0) =
    (Normal (Undefined, Object [("0", Str "a"); ("1", Null)]), fresh calm 0).
Proof. reflexivity. Qed.

Example post_tasks_run :
  post_tasks coordination_up (Object scan_task) (route_fresh calm 0) =
    (Normal tt,
     route_after calm 0
       [@InvokedRoute calm
          (AssignTask (Object [("kind", Str "scan"); ("depth", Number 2%float)])
             (Str "a1")) ok;
        Plain (Responded 201 alice)]).
Proof. reflexivity. Qed.

(** ** The further statements at concrete inputs *)

Lemma constructor_builds_configured_clients_witness :
  (twitterService (facade calm (Some tt) (Some tt) tt tt) = None <->
   twitter full_config = None) /\
  (discordService (facade calm (Some tt) (Some tt) tt tt) = None <->
   discord full_config = None).
Proof.
  apply (@constructor_builds_configured_clients calm full_config
           (fresh calm 0) (fresh calm 0)).
  reflexivity.
Defined.

Lemma redis_host_precedence_witness :
  ro_host (redis_options (redis_config (Some "cache") None)) = "cache" /\
  ro_host (redis_options (redis_config (Some "") None)) = "redis.internal".
Proof.
  split.
  - apply (proj1 (@redis_host_precedence with_env (redis_config (Some "cache") None))).
    + reflexivity.
    + discriminate.
  - apply (proj1 (proj2 (@redis_host_precedence with_env
                           (redis_config (Some "") None))
                    (or_intror eq_refl))).
    + reflexivity.
    + discriminate.
Defined.

Lemma redis_port_fallback_witness :
  ro_port (redis_options (redis_config None (Some 6380%float))) = 6380%float /\
  ro_port (redis_options (redis_config None (Some 0%float))) =
    parseInt with_env "6379".
Proof.
  split.
  - apply (proj1 (@redis_port_fallback with_env
                    (redis_config None (Some 6380%float)))); reflexivity.
  - apply (proj2 (proj2 (@redis_port_fallback with_env
                           (redis_config None (Some 0%float)))
                    (or_intror eq_refl))).
    right. reflexivity.
Defined.

Lemma initialize_without_twitter_witness :
  initialize (facade calm None (Some tt) tt tt) (fresh calm 0) =
    (Normal tt,
     after calm 0 [ElizaSuccess "Social services initialized successfully"]).
Proof.
  apply (@initialize_without_twitter calm (facade calm None (Some tt) tt tt)
           (fresh calm 0)).
  reflexivity.
Defined.

Lemma initialize_follows_twitter_witness :
  initialize (facade calm (Some tt) None tt tt) (fresh calm 0) =
    (Normal tt,
     after calm 1
       [@Invoked calm TwitterInitialize ok;
        ElizaSuccess "Social services initialized successfully"]).
Proof.
  apply (proj1 (@initialize_follows_twitter calm (facade calm (Some tt) None tt tt)
                  tt (fresh calm 0) ok 1 eq_refl eq_refl)).
  reflexivity.
Defined.

Lemma sendMessage_to_twitter_witness :
  sendMessage (facade tweet_down (Some tt) (Some tt) tt tt) "Twitter" "42" "gm"
    (fresh tweet_down 0) =
    (@Abrupt tweet_down _ (External "boom"),
     after tweet_down 1
       [@Invoked tweet_down (Tweet "gm" (Some "42")) boom;
        @ElizaError tweet_down "Failed to send message to Twitter:"
          (External "boom")]).
Proof.
  apply (proj2 (@sendMessage_to_twitter tweet_down
                  (facade tweet_down (Some tt) (Some tt) tt tt) tt
                  "Twitter" "42" "gm" (fresh tweet_down 0) boom 1
                  eq_refl eq_refl eq_refl)).
  right. reflexivity.
Defined.

Lemma sendMessage_to_discord_witness :
  sendMessage (facade calm (Some tt) (Some tt) tt tt) "DISCORD" "general" "gm"
    (fresh calm 0) =
    (Normal tt,
     after calm 1 [@Invoked calm (DiscordSendMessage "general" "gm") ok]).
Proof.
  apply (proj1 (@sendMessage_to_discord calm
                  (facade calm (Some tt) (Some tt) tt tt) tt
                  "DISCORD" "general" "gm" (fresh calm 0) ok 1
                  eq_refl eq_refl eq_refl)).
  reflexivity.
Defined.

Lemma send_waits_for_tweet_witness :
  send (facade tweet_pending (Some tt) (Some tt) tt tt) "gm" (fresh tweet_pending 0) =
    (Stuck,
     after tweet_pending 1
       [@Invoked tweet_pending (Tweet "gm" None) (Returned Pending)]).
Proof.
  apply (@send_waits_for_tweet tweet_pending
           (facade tweet_pending (Some tt) (Some tt) tt tt) tt "gm"
           (fresh tweet_pending 0) 1); reflexivity.
Defined.

Lemma send_tweets_without_reply_witness :
  In (@Invoked calm (Tweet "gm" None) ok) (trace (fresh calm 0)) \/
  ("gm" = "gm" /\ @None string = None).
Proof.
  apply (@send_tweets_without_reply calm (facade calm (Some tt) (Some tt) tt tt)
           "gm" (fresh calm 0) "gm" None ok).
  simpl. left. reflexivity.
Defined.

Lemma send_logs_only_tweet_failures_witness :
  In (@ElizaError tweet_down "Failed to send tweet:" (External "boom"))
     (trace (fresh tweet_down 0)) \/
  exists tw e,
    twitterService (facade tweet_down (Some tt) None tt tt) = Some tw /\
    failed_with (fst (tweet tweet_down tw "gm" None (world (fresh tweet_down 0)))) e /\
    @ElizaError tweet_down "Failed to send tweet:" (External "boom") =
      ElizaError "Failed to send tweet:" (External e).
Proof.
  apply (@send_logs_only_tweet_failures tweet_down
           (facade tweet_down (Some tt) None tt tt) "gm" (fresh tweet_down 0)).
  - simpl. right. left. reflexivity.
  - reflexivity.
Defined.

Lemma no_twitter_section_no_twitter_call_witness :
  (forall content,
     In (@Invoked calm TwitterInitialize ok)
        (trace (snd (send (facade calm None None tt tt) content (fresh calm 0)))) ->
     In (@Invoked calm TwitterInitialize ok) (trace (fresh calm 0))) /\
  (forall platform messageId content,
     In (@Invoked calm TwitterInitialize ok)
        (trace (snd (sendMessage (facade calm None None tt tt)
                       platform messageId content (fresh calm 0)))) ->
     In (@Invoked calm TwitterInitialize ok) (trace (fresh calm 0))) /\
  (In (@Invoked calm TwitterInitialize ok)
      (trace (snd (initialize (facade calm None None tt tt) (fresh calm 0)))) ->
   In (@Invoked calm TwitterInitialize ok) (trace (fresh calm 0))).
Proof.
  apply (@no_twitter_section_no_twitter_call calm (key_only "k3y")
           (fresh calm 0) (fresh calm 0) (facade calm None None tt tt)
           eq_refl eq_refl (fresh calm 0) TwitterInitialize ok eq_refl).
Defined.

Lemma patch_task_status_without_body_witness :
  patch_task_status "abc" Undefined (fresh calm 0) =
    (Normal tt,
     after calm 0
       [@LoggerError calm "Error updating task status:" TypeError;
        Responded 500 (Object [("error", Str "Failed to update task status")])]).
Proof.
  apply (@patch_task_status_without_body calm "abc" Undefined (fresh calm 0)).
  left. reflexivity.
Defined.

Lemma patch_task_status_reads_two_fields_witness :
  patch_task_status "abc"
    (Object [("note", Str "x"); ("status", Str "done")]) (fresh calm 0) =
  patch_task_status "abc"
    (Object [("status", Str "done"); ("result", Undefined)]) (fresh calm 0).
Proof.
  apply (proj1 (@patch_task_status_reads_two_fields calm "abc"
                  [("note", Str "x"); ("status", Str "done")]
                  [("status", Str "done"); ("result", Undefined)]
                  (fresh calm 0) eq_refl eq_refl)).
Defined.

Lemma taskData_lookup_witness :
  own_property (without_key "agentId" scan_task) "depth" =
  own_property scan_task "depth".
Proof.
  apply (proj2 (taskData_lookup scan_task "depth")). discriminate.
Defined.

Lemma post_tasks_responses_witness :
  post_tasks coordination_down (Object scan_task) (route_fresh calm 0) =
    (Normal tt,
     route_after calm 0
       [@InvokedRoute calm
          (AssignTask (Object (without_key "agentId" scan_task))
             (own_property scan_task "agentId")) (Threw "db");
        Plain (@LoggerError calm "Error creating task:" (External "db"));
        Plain (Responded 500 (Object [("error", Str "Failed to create task")]))]).
Proof.
  apply (proj2 (@post_tasks_responses calm coordination_down scan_task
                  (route_fresh calm 0) (Threw "db") 0 eq_refl)).
  left. reflexivity.
Defined.

Lemma post_tasks_without_agentId_witness :
  agentId_and_taskData (Object [("kind", Str "scan")]) (fresh calm 0) =
    (Normal (Undefined, Object [("kind", Str "scan")]), fresh calm 0).
Proof.
  apply (@post_tasks_without_agentId calm [("kind", Str "scan")] (fresh calm 0)).
  intros v [H | []]. discriminate H.
Defined.

Lemma post_tasks_without_body_witness :
  post_tasks coordination_up Null (route_fresh calm 0) =
    (Normal tt,
     route_after calm 0
       [Plain (@LoggerError calm "Error creating task:" TypeError);
        Plain (Responded 500 (Object [("error", Str "Failed to create task")]))]).
Proof.
  apply (@post_tasks_without_body calm coordination_up Null (route_fresh calm 0)).
  right. reflexivity.
Defined.

Lemma get_agent_metrics_responses_witness :
  get_agent_metrics coordination_up "a1" (route_fresh calm 0) =
    (Normal tt,
     route_after calm 0
       [@InvokedRoute calm (GetAgentMetrics "a1") ok;
        Plain (Responded 200 alice)]) /\
  get_agent_metrics coordination_down "a1" (route_fresh calm 0) =
    (Normal tt,
     route_after calm 0
       [@InvokedRoute calm (GetAgentMetrics "a1") boom_db;
        Plain (@LoggerError calm "Error fetching agent metrics:" (External "db"));
        Plain (Responded 500
                 (Object [("error", Str "Failed to fetch agent metrics")]))]).
Proof.
  split.
  - apply (proj1 (@get_agent_metrics_responses calm coordination_up "a1"
                    (route_fresh calm 0) (Returned (Fulfilled alice)) 0 eq_refl)).
    reflexivity.
  - apply (proj2 (@get_agent_metrics_responses calm coordination_down "a1"
                    (route_fresh calm 0) (Returned (Rejected "db")) 0 eq_refl)).
    right. reflexivity.
Defined.
